(** * AgriSense AI: the crop-recommendation request pipeline

    A shallow embedding of [backend/utils/validators.py],
    [backend/utils/rainfall.py] and the [/api/recommend] handler of
    [backend/app.py].

    Python's [float] is IEEE-754 binary64, and so is Rocq's primitive
    [float]: arithmetic and comparisons of the source are the primitive
    ones, bit for bit.  A request body is [None] (empty or unparseable) or a
    dictionary from field names to decoded JSON values
    ([gmap string pyval]); the handler updates it in place, which is an
    [insert] threaded through the later steps.  An exception is the [Raise]
    case of [result]; the text of its message is left out.

    Outside the repository, and left open here: Python's parsing of a string
    as a float, [repr], [np.argsort], and the two scikit-learn artifacts.
    They are variables of the section and fields of records, and a theorem
    that needs one to behave says so in a hypothesis. *)

From Stdlib Require Import ZArith Floats Ascii String List Lia Bool.
From stdpp Require Import base option list gmap strings pretty sorting.

Set Warnings "-inexact-float,-register-all".
Local Open Scope string_scope.
Local Open Scope list_scope.

(** ** Python values and exceptions *)

(** What [json.loads] produces: [None], booleans, unbounded integers,
    floats (the decoder accepts [NaN] and [Infinity]), strings, lists and
    dictionaries. *)
Inductive pyval : Type :=
| PyNone
| PyBool (b : bool)
| PyInt (z : Z)
| PyFloat (x : float)
| PyStr (s : string)
| PyList (l : list pyval)
| PyDict (kv : list (string * pyval)).

Inductive pyexn : Type :=
| TypeError
| ValueError
| OverflowError
| KeyError
| IndexError
| AttributeError.

Inductive result (A : Type) : Type :=
| Ok (a : A)
| Raise (e : pyexn).
Arguments Ok {A} a.
Arguments Raise {A} e.

Definition bind {A B : Type} (r : result A) (k : A -> result B) : result B :=
  match r with
  | Ok a => k a
  | Raise e => Raise e
  end.

Notation "x <-- r ;; k" := (bind r (fun x => k))
  (at level 100, r at next level, right associativity).

(** A [for] loop whose body may raise: the state is threaded through the
    items, the first exception ends the loop. *)
Fixpoint for_each {S X : Type} (body : S -> X -> result S) (s : S)
    (items : list X) : result S :=
  match items with
  | [] => Ok s
  | x :: rest => s' <-- body s x ;; for_each body s' rest
  end.

Definition is_none (v : option pyval) : bool :=
  match v with
  | None | Some PyNone => true
  | Some _ => false
  end.

(** ** Floats *)

(** An integer as the nearest double, ties to even; beyond the largest
    double the rounding gives an infinity. *)
Definition float_of_Z (z : Z) : float :=
  SF2Prim (binary_normalize prec emax z 0 false).

(** The builtins [max(a, b)] and [min(a, b)]: the first argument stays
    unless the second is strictly greater (smaller). *)
Definition py_max (a b : float) : float := if (a <? b)%float then b else a.
Definition py_min (a b : float) : float := if (b <? a)%float then b else a.

(** [format(x, ".0f")]: the nearest integer to the exact value of [x], ties
    to even, in decimal; the mantissa [m] and exponent [e] give [m * 2^e]. *)
Definition round_half_even (m : positive) (e : Z) : Z :=
  if (0 <=? e)%Z then (Z.pos m * 2 ^ e)%Z
  else
    let d := (2 ^ (- e))%Z in
    let q := (Z.pos m / d)%Z in
    let r := (Z.pos m mod d)%Z in
    match (2 * r ?= d)%Z with
    | Lt => q
    | Gt => (q + 1)%Z
    | Eq => if Z.even q then q else (q + 1)%Z
    end.

Definition format_0f (x : float) : string :=
  match Prim2SF x with
  | S754_nan => "nan"
  | S754_infinity s => if s then "-inf" else "inf"
  | S754_zero s => if s then "-0" else "0"
  | S754_finite s m e =>
      (if s then "-" else "") +:+ pretty (round_half_even m e)
  end.

(** ** A sort for the sample runs

    [np.argsort] stays open in the pipeline below.  Its default kind is not
    stable, and which of two equal values comes first is left to the build
    of numpy: one that dispatches to vectorised sorts orders a short array
    through a sorting network.  The sample runs need one sort to run, and
    take the insertion sort of numpy's scalar quicksort, the loop that
    finishes every stretch of at most 16 elements and is the whole sort of a
    short array where nothing vectorised is dispatched.  The runs check the
    promise of [np.argsort] on every array they sort with it; it is not
    [np.argsort] on every machine.
    [npy_lt] is numpy's order on floats (NaN last).  The loop moves the new
    index left past every index whose value is strictly greater; [rprefix]
    is the sorted prefix read from the right. *)
Definition npy_lt (a b : float) : bool :=
  (a <? b)%float || (is_nan b && negb (is_nan a)).

Fixpoint insert_from_right (v : list float) (vi : nat) (rprefix : list nat)
    : list nat :=
  match rprefix with
  | [] => [vi]
  | k :: rest =>
      if npy_lt (nth vi v nan) (nth k v nan)
      then k :: insert_from_right v vi rest
      else vi :: rprefix
  end.

Definition insertion_argsort (v : list float) : list nat :=
  rev (fold_left (fun rprefix vi => insert_from_right v vi rprefix)
         (seq 0 (length v)) []).

(** ** The artifacts and the answers of the handler *)

(** The two artifacts loaded at startup.  Both are opaque to the handler:
    the scaler maps a feature row to a row, the classifier a row to one
    probability per class of [classes_]; either call may raise. *)
Record scaler : Type := { transform : list float -> result (list float) }.
Record classifier : Type := {
  predict_proba : list float -> result (list float);
  classes_ : list string
}.

Record recommendation : Type := { crop : string; confidence : string }.

Inductive response : Type :=
| ServiceUnavailable
| BadRequest (errors : list string)
| Success (recommendations : list recommendation)
    (warnings : option (list string))
    (rainfall_source : string) (rainfall_value_used : float)
| ServerError (exc : pyexn).

Definition status_code (r : response) : Z :=
  match r with
  | ServiceUnavailable => 503
  | BadRequest _ => 400
  | Success _ _ _ _ => 200
  | ServerError _ => 500
  end.

(** ** Stand-ins for the sample runs

    The runs at the end of the file need a parser and a [repr].
    [float_of_digits] agrees with Python's [float] on strings of decimal
    digits and on strings that hold no float literal; [sample_repr] agrees
    with Python's [repr] on [None], booleans, integers, floats of integral
    value below 1e16 and strings without quotes or escapes. *)
Definition digit_of (c : ascii) : option Z :=
  let n := Z.of_N (N_of_ascii c) in
  if ((48 <=? n) && (n <=? 57))%Z then Some (n - 48)%Z else None.

Fixpoint digits_value (acc : Z) (s : string) : option Z :=
  match s with
  | EmptyString => Some acc
  | String c rest =>
      match digit_of c with
      | Some d => digits_value (10 * acc + d)%Z rest
      | None => None
      end
  end.

Definition float_of_digits (s : string) : option float :=
  match s with
  | EmptyString => None
  | _ => option_map float_of_Z (digits_value 0 s)
  end.

Definition integral_repr (x : float) : string :=
  match Prim2SF x with
  | S754_nan => "nan"
  | S754_infinity s => if s then "-inf" else "inf"
  | S754_zero s => if s then "-0.0" else "0.0"
  | S754_finite s m e =>
      (if s then "-" else "") +:+ pretty (round_half_even m e) +:+ ".0"
  end.

Definition sample_repr (v : pyval) : string :=
  match v with
  | PyNone => "None"
  | PyBool b => if b then "True" else "False"
  | PyInt z => pretty z
  | PyFloat x => integral_repr x
  | PyStr s => "'" +:+ s +:+ "'"
  | PyList _ => "[...]"
  | PyDict _ => "{...}"
  end.

(** The reading of the specification's scenario, and variations of it. *)
Definition reading : gmap string pyval :=
  list_to_map
    [ ("N", PyInt 90); ("P", PyInt 42); ("K", PyInt 43); ("ph", PyFloat 6.5);
      ("moisture", PyInt 70); ("temperature", PyInt 25);
      ("humidity", PyInt 80) ].

Definition hot_reading : gmap string pyval :=
  <["temperature" := PyInt 120]> (<["N" := PyInt (-5)]> reading).

Definition gauged_reading : gmap string pyval :=
  <["rainfall" := PyFloat 210.5]> reading.

Definition garbled_reading : gmap string pyval :=
  <["rainfall" := PyStr "abc"]> reading.

Definition garbled_hot_reading : gmap string pyval :=
  <["rainfall" := PyStr "abc"]> hot_reading.

Definition huge_reading : gmap string pyval :=
  <["N" := PyInt (10 ^ 400)]> reading.

Definition sample_scaler : scaler := {| transform := fun row => Ok row |}.

Definition sample_model : classifier :=
  {| predict_proba := fun _ => Ok [0.1; 0.6; 0.05; 0.25]%float;
     classes_ := ["Rice"; "Wheat"; "Maize"; "Jute"] |}.

(** ** Startup and the health check of app.py *)

(** The module-level [try]: [joblib.load] of each path gives the object, or
    raises [FileNotFoundError] when the file is missing ([None] here); the
    [except] then sets both globals to [None].  Any other failure of a load
    ends the import, and there is no application to ask. *)
Definition load_artifacts (model_file : option classifier)
    (scaler_file : option scaler) : option classifier * option scaler :=
  match model_file with
  | None => (None, None)
  | Some model =>
      match scaler_file with
      | None => (None, None)
      | Some sc => (Some model, Some sc)
      end
  end.

Record health : Type := {
  status : string;
  service : string;
  model_status : string
}.

Definition health_check (crop_model : option classifier) : health :=
  {| status := "ok";
     service := "AgriSense AI — Crop Recommendation API";
     model_status :=
       match crop_model with
       | Some _ => "loaded"
       | None => "not loaded"
       end |}.

(** ** The training data of model/train_model.py *)

(** A crop's profile: for each key the interval its feature is drawn from.
    The bounds are written in the source as integers or floats;
    [np.random.uniform] takes them as doubles, and so are they here.  The
    table is a list, in source order: the generator walks it in that
    order. *)
Definition profile : Type := list (string * (float * float)).

Definition CROP_PROFILES : list (string * profile) :=
    [
      ("Rice",
        [ ("N", (60, 100)); ("P", (35, 60)); ("K", (35, 55));
          ("temp", (20, 28)); ("humidity", (78, 92));
          ("ph", (5.0, 7.0)); ("rainfall", (180, 260)) ]);
      ("Wheat",
        [ ("N", (70, 120)); ("P", (50, 75)); ("K", (45, 65));
          ("temp", (12, 25)); ("humidity", (50, 70));
          ("ph", (5.5, 7.5)); ("rainfall", (50, 120)) ]);
      ("Maize",
        [ ("N", (60, 100)); ("P", (35, 60)); ("K", (30, 50));
          ("temp", (18, 30)); ("humidity", (55, 75));
          ("ph", (5.5, 7.5)); ("rainfall", (60, 110)) ]);
      ("Jute",
        [ ("N", (60, 100)); ("P", (35, 55)); ("K", (35, 55));
          ("temp", (24, 37)); ("humidity", (70, 90));
          ("ph", (6.0, 7.5)); ("rainfall", (150, 250)) ]);
      ("Cotton",
        [ ("N", (100, 140)); ("P", (40, 65)); ("K", (18, 30));
          ("temp", (22, 32)); ("humidity", (60, 80));
          ("ph", (6.0, 8.0)); ("rainfall", (60, 110)) ]);
      ("Coconut",
        [ ("N", (15, 30)); ("P", (8, 18)); ("K", (28, 40));
          ("temp", (25, 32)); ("humidity", (80, 95));
          ("ph", (5.0, 7.0)); ("rainfall", (130, 220)) ]);
      ("Coffee",
        [ ("N", (90, 130)); ("P", (15, 30)); ("K", (25, 40));
          ("temp", (22, 30)); ("humidity", (50, 70));
          ("ph", (6.0, 7.0)); ("rainfall", (120, 200)) ]);
      ("Sugarcane",
        [ ("N", (70, 120)); ("P", (30, 55)); ("K", (30, 50));
          ("temp", (25, 35)); ("humidity", (65, 85));
          ("ph", (5.0, 8.0)); ("rainfall", (80, 150)) ]);
      ("Tea",
        [ ("N", (15, 30)); ("P", (5, 10)); ("K", (20, 35));
          ("temp", (18, 28)); ("humidity", (70, 90));
          ("ph", (4.5, 6.0)); ("rainfall", (150, 300)) ]);
      ("Banana",
        [ ("N", (80, 120)); ("P", (70, 100)); ("K", (45, 60));
          ("temp", (25, 35)); ("humidity", (75, 90));
          ("ph", (5.5, 7.0)); ("rainfall", (90, 180)) ]);
      ("Mango",
        [ ("N", (15, 30)); ("P", (15, 30)); ("K", (25, 45));
          ("temp", (27, 35)); ("humidity", (45, 65));
          ("ph", (5.5, 7.5)); ("rainfall", (40, 100)) ]);
      ("Grapes",
        [ ("N", (15, 30)); ("P", (120, 150)); ("K", (190, 210));
          ("temp", (10, 20)); ("humidity", (78, 88));
          ("ph", (5.5, 7.0)); ("rainfall", (60, 80)) ]);
      ("Apple",
        [ ("N", (15, 30)); ("P", (120, 145)); ("K", (195, 210));
          ("temp", (20, 25)); ("humidity", (88, 94));
          ("ph", (5.5, 6.5)); ("rainfall", (100, 130)) ]);
      ("Orange",
        [ ("N", (15, 25)); ("P", (8, 15)); ("K", (8, 15));
          ("temp", (22, 32)); ("humidity", (88, 95));
          ("ph", (6.5, 7.5)); ("rainfall", (90, 120)) ]);
      ("Papaya",
        [ ("N", (40, 65)); ("P", (55, 75)); ("K", (48, 60));
          ("temp", (28, 38)); ("humidity", (88, 95));
          ("ph", (6.0, 7.0)); ("rainfall", (40, 70)) ]);
      ("Lentil",
        [ ("N", (15, 25)); ("P", (55, 80)); ("K", (15, 25));
          ("temp", (20, 28)); ("humidity", (30, 50));
          ("ph", (6.0, 8.0)); ("rainfall", (35, 55)) ]);
      ("Chickpea",
        [ ("N", (30, 50)); ("P", (60, 80)); ("K", (75, 85));
          ("temp", (15, 25)); ("humidity", (14, 20));
          ("ph", (6.5, 8.0)); ("rainfall", (60, 90)) ]);
      ("Muskmelon",
        [ ("N", (90, 110)); ("P", (15, 25)); ("K", (45, 60));
          ("temp", (28, 35)); ("humidity", (88, 95));
          ("ph", (6.0, 7.0)); ("rainfall", (20, 40)) ]);
      ("Watermelon",
        [ ("N", (80, 110)); ("P", (15, 25)); ("K", (48, 55));
          ("temp", (25, 32)); ("humidity", (82, 90));
          ("ph", (6.0, 7.0)); ("rainfall", (40, 60)) ]);
      ("Potato",
        [ ("N", (55, 75)); ("P", (55, 70)); ("K", (75, 85));
          ("temp", (15, 22)); ("humidity", (70, 85));
          ("ph", (4.5, 6.5)); ("rainfall", (35, 55)) ]);
      ("Tomato",
        [ ("N", (70, 95)); ("P", (55, 70)); ("K", (58, 68));
          ("temp", (22, 30)); ("humidity", (78, 88));
          ("ph", (6.0, 7.5)); ("rainfall", (40, 60)) ]);
      ("Soybean",
        [ ("N", (15, 30)); ("P", (55, 75)); ("K", (18, 28));
          ("temp", (20, 30)); ("humidity", (60, 80));
          ("ph", (5.5, 7.0)); ("rainfall", (55, 85)) ])
    ]%float.

Definition FEATURE_COLUMNS : list string :=
  ["N"; "P"; "K"; "temperature"; "humidity"; "ph"; "rainfall"].

Definition SAMPLES_PER_CROP : nat := 120.

(** [d[key]] on a dictionary written as a list. *)
Fixpoint dict_get {V : Type} (d : list (string * V)) (key : string)
    : result V :=
  match d with
  | [] => Raise KeyError
  | (k, v) :: rest => if String.eqb k key then Ok v else dict_get rest key
  end.

(** The columns of a row of [generate_synthetic_data], each with the key of
    the profile it is drawn from, in the order the row is written. *)
Definition ROW_KEYS : list (string * string) :=
  [ ("N", "N"); ("P", "P"); ("K", "K"); ("temperature", "temp");
    ("humidity", "humidity"); ("ph", "ph"); ("rainfall", "rainfall") ].

(** A row of the data frame: its numeric columns and its label. *)
Record row : Type := { features : gmap string float; label : string }.

(** [df[col]]: a row without the column holds NaN there, as in a frame built
    from dictionaries. *)
Definition column (col : string) (df : list row) : list float :=
  map (fun r => default nan (features r !! col)) df.

(** [df[col] = values], the values in the order of the rows: pandas raises
    [ValueError] when there are not as many values as rows. *)
Definition set_column (col : string) (values : list float) (df : list row)
    : result (list row) :=
  if Nat.eqb (length values) (length df) then
    Ok (zip_with
          (fun r x =>
             {| features := <[col := x]> (features r); label := label r |})
          df values)
  else Raise ValueError.

(** [series + array], a column and a numpy array: entry by entry when the
    lengths agree; numpy stretches an array of one entry over the column;
    any other pair of lengths raises [ValueError]. *)
Definition series_add (series array : list float) : result (list float) :=
  if Nat.eqb (length array) (length series) then
    Ok (zip_with PrimFloat.add series array)
  else
    match array with
    | [x] => Ok (map (fun y => (y + x)%float) series)
    | _ => Raise ValueError
    end.

(** [Series.clip(lower, upper)] on one entry: NaN stays, a value below
    [lower] becomes [lower], a value above [upper] becomes [upper]. *)
Definition clip (lower upper x : float) : float :=
  if is_nan x then x
  else if (x <? lower)%float then lower
  else if (upper <? x)%float then upper
  else x.

Section Training.

(** numpy's global generator: its state, and the two draws the script
    makes, each returning the state that follows. *)
Variable rng : Type.
Variable uniform : rng -> float -> float -> float * rng.
Variable normal : rng -> float -> float -> nat -> list float * rng.

(** One turn of the dictionary display that makes a row. *)
Definition draw_feature (ranges : profile) (st : gmap string float * rng)
    (ck : string * string) : result (gmap string float * rng) :=
  let '(drawn, g) := st in
  let '(col, key) := ck in
  bounds <-- dict_get ranges key ;;
  let '(x, g') := uniform g bounds.1 bounds.2 in
  Ok (<[col := x]> drawn, g').

Definition draw_row (crop_name : string) (ranges : profile) (g : rng)
    : result (row * rng) :=
  st <-- for_each (draw_feature ranges) (∅, g) ROW_KEYS ;;
  Ok ({| features := st.1; label := crop_name |}, st.2).

(** The inner loop: [SAMPLES_PER_CROP] rows of one crop. *)
Definition draw_crop (st : list row * rng) (entry : string * profile)
    : result (list row * rng) :=
  for_each
    (fun (st : list row * rng) (_ : nat) =>
       rg <-- draw_row entry.1 entry.2 st.2 ;;
       Ok (st.1 ++ [rg.1], rg.2))
    st (seq 0 SAMPLES_PER_CROP).

(** One turn of the noise loop. *)
Definition add_noise (st : list row * rng) (col : string)
    : result (list row * rng) :=
  let '(df, g) := st in
  let '(noise, g') := normal g 0%float 0.5%float (length df) in
  noisy <-- series_add (column col df) noise ;;
  df' <-- set_column col noisy df ;;
  Ok (df', g').

Definition generate_synthetic_data (g : rng) : result (list row * rng) :=
  st <-- for_each draw_crop ([], g) CROP_PROFILES ;;
  st <-- for_each add_noise st FEATURE_COLUMNS ;;
  let '(df, g') := st in
  df <-- set_column "ph" (map (clip 0 14) (column "ph" df)) df ;;
  Ok (df, g').

End Training.

(** More stand-ins for the sample runs: a random generator that counts its
    calls, draws the lower bound and adds no noise. *)
Definition sample_uniform (g : nat) (low high : float) : float * nat :=
  (low, S g).

Definition sample_normal (g : nat) (loc scale : float) (n : nat)
    : list float * nat :=
  (repeat loc n, S g).

Definition tagged_reading : gmap string pyval :=
  <["device_id" := PyStr "esp32-7"]> gauged_reading.

Section Pipeline.

(** The pieces of the Python runtime and of numpy that the pipeline calls
    and this file leaves open: parsing a string as a float ([None] when
    [float(s)] raises [ValueError]), [repr], and [np.argsort]. *)
Variable float_of_str : string -> option float.
Variable repr : pyval -> string.
Variable argsort : list float -> list nat.

(** [float(v)]. *)
Definition py_float (v : pyval) : result float :=
  match v with
  | PyNone => Raise TypeError
  | PyBool b => Ok (if b then 1%float else 0%float)
  | PyInt z =>
      let x := float_of_Z z in
      if is_infinity x then Raise OverflowError else Ok x
  | PyFloat x => Ok x
  | PyStr s =>
      match float_of_str s with
      | Some x => Ok x
      | None => Raise ValueError
      end
  | PyList _ => Raise TypeError
  | PyDict _ => Raise TypeError
  end.

(** *** validators.py *)

Definition REQUIRED_FIELDS : list string :=
  ["N"; "P"; "K"; "ph"; "moisture"; "temperature"; "humidity"].

Definition REALISTIC_RANGES : list (string * (Z * Z * string)) :=
  [ ("N",           (0, 200, "Nitrogen (N)"));
    ("P",           (0, 200, "Phosphorus (P)"));
    ("K",           (0, 300, "Potassium (K)"));
    ("temperature", (-10, 60, "Temperature"));
    ("humidity",    (0, 100, "Humidity"));
    ("ph",          (0, 14, "pH"));
    ("rainfall",    (0, 500, "Rainfall"));
    ("moisture",    (0, 100, "Soil Moisture")) ]%Z.

Definition CONFIDENCE_PENALTY_PER_WARNING : float := 0.1%float.

Definition missing_error (field : string) : string :=
  "Missing required field: '" +:+ field +:+ "'.".

Definition not_a_number_error (field : string) (v : pyval) : string :=
  "Field '" +:+ field +:+ "' must be a number, got: " +:+ repr v +:+ ".".

(** One turn of the loop of [validate_input]: only [TypeError] and
    [ValueError] are caught around the conversion. *)
Definition validate_field (data : gmap string pyval) (errors : list string)
    (field : string) : result (list string) :=
  match data !! field with
  | None | Some PyNone => Ok (errors ++ [missing_error field])
  | Some v =>
      match py_float v with
      | Ok _ => Ok errors
      | Raise TypeError | Raise ValueError =>
          Ok (errors ++ [not_a_number_error field v])
      | Raise e => Raise e
      end
  end.

Definition validate_input (data : option (gmap string pyval))
    : result (list string) :=
  match data with
  | None => Ok ["Request body is empty or not valid JSON."]
  | Some d => for_each (validate_field d) [] REQUIRED_FIELDS
  end.

Definition below_warning (label : string) (value : float) (low : Z) : string :=
  "Input " +:+ label +:+ " (" +:+ repr (PyFloat value)
    +:+ ") is below the expected minimum (" +:+ pretty low +:+ ").".

Definition above_warning (label : string) (value : float) (high : Z) : string :=
  "Input " +:+ label +:+ " (" +:+ repr (PyFloat value)
    +:+ ") is above the expected maximum (" +:+ pretty high +:+ ").".

(** One turn of the loop of [check_realistic_ranges]. *)
Definition check_field (data : gmap string pyval)
    (st : list string * float) (entry : string * (Z * Z * string))
    : result (list string * float) :=
  let '(warnings, total_penalty) := st in
  let '(field, (low, high, label)) := entry in
  match data !! field with
  | None | Some PyNone => Ok st
  | Some v =>
      value <-- py_float v ;;
      if (value <? float_of_Z low)%float then
        Ok (warnings ++ [below_warning label value low],
            (total_penalty + CONFIDENCE_PENALTY_PER_WARNING)%float)
      else if (float_of_Z high <? value)%float then
        Ok (warnings ++ [above_warning label value high],
            (total_penalty + CONFIDENCE_PENALTY_PER_WARNING)%float)
      else Ok st
  end.

Definition check_realistic_ranges (data : gmap string pyval)
    : result (list string * float) :=
  st <-- for_each (check_field data) ([], 0%float) REALISTIC_RANGES ;;
  let '(warnings, total_penalty) := st in
  Ok (warnings, py_min total_penalty 0.5%float).

(** *** rainfall.py *)

Definition HISTORICAL_RAINFALL_AVERAGES : gmap string float :=
  list_to_map
    [ ("default", 120.0); ("january", 15.0); ("february", 20.0);
      ("march", 30.0); ("april", 45.0); ("may", 65.0); ("june", 165.0);
      ("july", 280.0); ("august", 260.0); ("september", 195.0);
      ("october", 110.0); ("november", 40.0); ("december", 15.0) ]%float.

(** [mock_rainfall] is what evaluating
    [round(random.uniform(50.0, 200.0), 1)] gave inside the [try]: a value,
    or an exception, which the [except] turns into [None]. *)
Definition fetch_rainfall_from_weather_api (mock_rainfall : result float)
    : option float :=
  match mock_rainfall with
  | Ok v => Some v
  | Raise _ => None
  end.

Definition getitem {V : Type} (d : gmap string V) (key : string) : result V :=
  match d !! key with
  | Some v => Ok v
  | None => Raise KeyError
  end.

Definition get_default_rainfall (mock_rainfall : result float) : result float :=
  match fetch_rainfall_from_weather_api mock_rainfall with
  | Some api_rainfall => Ok api_rainfall
  | None => getitem HISTORICAL_RAINFALL_AVERAGES "default"
  end.

(** *** app.py *)

Definition FEATURE_ORDER : list string :=
  ["N"; "P"; "K"; "temperature"; "humidity"; "ph"; "rainfall"].

(** [float(data[key])]. *)
Definition float_item (data : gmap string pyval) (key : string) : result float :=
  v <-- getitem data key ;; py_float v.

(** Step 2: the rainfall fallback; the dictionary is updated in place. *)
Definition fill_rainfall (mock_rainfall : result float)
    (data : gmap string pyval) : result (gmap string pyval * string) :=
  if is_none (data !! "rainfall") then
    r <-- get_default_rainfall mock_rainfall ;;
    Ok (<["rainfall" := PyFloat r]> data, "estimated (fallback)")
  else Ok (data, "sensor").

(** Step 4: the row handed to the scaler. *)
Definition feature_values (data : gmap string pyval) : result (list float) :=
  n <-- float_item data "N" ;;
  p <-- float_item data "P" ;;
  k <-- float_item data "K" ;;
  t <-- float_item data "temperature" ;;
  h <-- float_item data "humidity" ;;
  ph <-- float_item data "ph" ;;
  r <-- float_item data "rainfall" ;;
  Ok [n; p; k; t; h; ph; r].

Definition index {A : Type} (l : list A) (i : nat) : result A :=
  match l !! i with
  | Some x => Ok x
  | None => Raise IndexError
  end.

(** [np.argsort(probabilities)[::-1][:3]]. *)
Definition top_indices (probabilities : list float) : list nat :=
  take 3 (reverse (argsort probabilities)).

Definition adjusted_confidence (raw_confidence confidence_penalty : float)
    : float :=
  py_max (raw_confidence - confidence_penalty)%float 0.01%float.

Definition confidence_pct (adjusted : float) : string :=
  format_0f (adjusted * 100)%float +:+ "%".

(** One turn of the loop over [top_indices]. *)
Definition append_recommendation (probabilities : list float)
    (class_labels : list string) (confidence_penalty : float)
    (recommendations : list recommendation) (idx : nat)
    : result (list recommendation) :=
  raw_confidence <-- index probabilities idx ;;
  label <-- index class_labels idx ;;
  Ok (recommendations ++
        [ {| crop := label;
             confidence :=
               confidence_pct
                 (adjusted_confidence raw_confidence confidence_penalty) |} ]).

(** Step 6, after the prediction: the three best classes. *)
Definition build_recommendations (probabilities : list float)
    (class_labels : list string) (confidence_penalty : float)
    : result (list recommendation) :=
  for_each (append_recommendation probabilities class_labels confidence_penalty)
    [] (top_indices probabilities).

Definition or_none (warnings : list string) : option (list string) :=
  match warnings with
  | [] => None
  | _ :: _ => Some warnings
  end.

(** The body of the [try] of [recommend_crop], after the guard on the
    artifacts and the validation. *)
Definition recommend_validated (model : classifier) (sc : scaler)
    (mock_rainfall : result float) (data : gmap string pyval)
    : result response :=
  filled <-- fill_rainfall mock_rainfall data ;;
  let '(data, rainfall_source) := filled in
  checked <-- check_realistic_ranges data ;;
  let '(warnings, confidence_penalty) := checked in
  features <-- feature_values data ;;
  scaled_features <-- transform sc features ;;
  probabilities <-- predict_proba model scaled_features ;;
  recommendations <--
    build_recommendations probabilities (classes_ model) confidence_penalty ;;
  rainfall_value_used <-- float_item data "rainfall" ;;
  Ok (Success recommendations (or_none warnings) rainfall_source
        rainfall_value_used).

Definition recommend_crop_try (crop_model : option classifier)
    (feature_scaler : option scaler) (mock_rainfall : result float)
    (data : option (gmap string pyval)) : result response :=
  match crop_model, feature_scaler with
  | Some model, Some sc =>
      errors <-- validate_input data ;;
      match errors with
      | _ :: _ => Ok (BadRequest errors)
      | [] =>
          match data with
          | None => Raise AttributeError
          | Some d => recommend_validated model sc mock_rainfall d
          end
      end
  | _, _ => Ok ServiceUnavailable
  end.

(** [recommend_crop]: the catch-all [except Exception] answers 500. *)
Definition recommend_crop (crop_model : option classifier)
    (feature_scaler : option scaler) (mock_rainfall : result float)
    (data : option (gmap string pyval)) : response :=
  match recommend_crop_try crop_model feature_scaler mock_rainfall data with
  | Ok r => r
  | Raise e => ServerError e
  end.

(** *** Vocabulary of the specification *)

(** A value strictly outside [[low, high]]. *)
Definition out_of_range (low high : Z) (value : float) : bool :=
  (value <? float_of_Z low)%float || (float_of_Z high <? value)%float.

(** The field of a range entry is present (and not null) with a value
    strictly outside its range. *)
Definition violates (data : gmap string pyval)
    (entry : string * (Z * Z * string)) : bool :=
  let '(field, (low, high, _)) := entry in
  match data !! field with
  | None | Some PyNone => false
  | Some v =>
      match py_float v with
      | Ok value => out_of_range low high value
      | Raise _ => false
      end
  end.

Definition violation_count (data : gmap string pyval) : nat :=
  length (List.filter (violates data) REALISTIC_RANGES).

(** The message for a violating entry: below the minimum, or else above
    the maximum. *)
Definition warning_text (data : gmap string pyval)
    (entry : string * (Z * Z * string)) : string :=
  let '(field, (low, high, label)) := entry in
  match data !! field with
  | Some v =>
      match py_float v with
      | Ok value =>
          if (value <? float_of_Z low)%float
          then below_warning label value low
          else above_warning label value high
      | Raise _ => ""
      end
  | None => ""
  end.

(** A field is convertible when it is absent, null, or [float] accepts
    it; a numeric dictionary, the input [check_realistic_ranges]
    documents, has every ranged field convertible. *)
Definition convertible (data : gmap string pyval) (field : string) : bool :=
  match data !! field with
  | None | Some PyNone => true
  | Some v => match py_float v with Ok _ => true | Raise _ => false end
  end.

Definition numeric (data : gmap string pyval) : bool :=
  forallb (fun entry => convertible data entry.1) REALISTIC_RANGES.

(** The running total after a row of violation flags. *)
Definition accumulate (total : float) (flags : list bool) : float :=
  fold_left
    (fun t (b : bool) =>
       if b then (t + CONFIDENCE_PENALTY_PER_WARNING)%float else t)
    flags total.

Definition count_true (flags : list bool) : nat :=
  length (List.filter (fun b : bool => b) flags).

(** The entry the loop appends for class [idx]. *)
Definition recommendation_of (probabilities : list float)
    (class_labels : list string) (confidence_penalty : float) (idx : nat)
    : recommendation :=
  {| crop := nth idx class_labels "";
     confidence :=
       confidence_pct
         (adjusted_confidence (nth idx probabilities nan) confidence_penalty) |}.

(** Class [i] has at most the probability of class [j]. *)
Definition prob_le (probabilities : list float) (i j : nat) : Prop :=
  (nth i probabilities nan <=? nth j probabilities nan)%float = true.

(** What numpy promises of [argsort]: the indices of the array, in
    ascending order of their values. *)
Definition sorts (probabilities : list float) (idxs : list nat) : Prop :=
  idxs ≡ₚ seq 0 (length probabilities) /\
  StronglySorted (prob_le probabilities) idxs.

(** The tie rule of the specification: of two returned classes of equal
    probability, the one earlier in the class order comes first. *)
Definition ties_keep_class_order (probabilities : list float)
    (returned : list nat) : Prop :=
  forall a b i j,
    returned !! a = Some i -> returned !! b = Some j ->
    (nth i probabilities nan =? nth j probabilities nan)%float = true ->
    i < j -> a < b.

(** A required field passes validation: present, not null, and accepted
    by [float]. *)
Definition valid_field (data : gmap string pyval) (field : string) : Prop :=
  exists v x, data !! field = Some v /\ v <> PyNone /\ py_float v = Ok x.

(** The error string a required field earns, if any. *)
Definition field_error (data : gmap string pyval) (field : string)
    : option string :=
  match data !! field with
  | None | Some PyNone => Some (missing_error field)
  | Some v =>
      match py_float v with
      | Ok _ => None
      | Raise _ => Some (not_a_number_error field v)
      end
  end.

(** The conversion of the field raises something other than [TypeError]
    and [ValueError]. *)
Definition raises_uncaught (data : gmap string pyval) (field : string)
    : bool :=
  match data !! field with
  | None | Some PyNone => false
  | Some v =>
      match py_float v with
      | Ok _ | Raise TypeError | Raise ValueError => false
      | Raise _ => true
      end
  end.

(** The artifacts answer: the scaler and the classifier return, with one
    probability per class, and [argsort] returns the indices of the
    probabilities. *)
Definition engine_answers (model : classifier) (sc : scaler) : Prop :=
  forall features, exists scaled probabilities,
    transform sc features = Ok scaled
    /\ predict_proba model scaled = Ok probabilities
    /\ length (classes_ model) = length probabilities
    /\ argsort probabilities ≡ₚ seq 0 (length probabilities).

(** Steps 5 and 6 of the handler on a row: the scaler on the row, the
    classifier on what the scaler returned, the three best classes of what
    the classifier returned. *)
Definition engine_recommendations (model : classifier) (sc : scaler)
    (features : list float) (confidence_penalty : float)
    : result (list recommendation) :=
  scaled_features <-- transform sc features ;;
  probabilities <-- predict_proba model scaled_features ;;
  build_recommendations probabilities (classes_ model) confidence_penalty.

(** The fields the handler reads: the ranged ones. *)
Definition KNOWN_FIELDS : list string := map fst REALISTIC_RANGES.

(** Two dictionaries say the same at a key: the same value, or two values
    with the same float. *)
Definition same_at (d1 d2 : gmap string pyval) (key : string) : Prop :=
  d1 !! key = d2 !! key
  \/ exists v1 v2 x,
       d1 !! key = Some v1 /\ d2 !! key = Some v2
       /\ py_float v1 = Ok x /\ py_float v2 = Ok x.

Definition same_reading (d1 d2 : gmap string pyval) : Prop :=
  forall key, key ∈ KNOWN_FIELDS -> same_at d1 d2 key.

(** What the placeholder lookup can give: a value between 50 and 200 (it
    rounds a uniform draw from that interval), or nothing. *)
Definition mock_in_range (mock_rainfall : result float) : Prop :=
  match mock_rainfall with
  | Ok v => (50 <=? v)%float = true /\ (v <=? 200)%float = true
  | Raise _ => True
  end.

(** The same answer, relabelled as coming from the sensor. *)
Definition as_sensor (r : response) : response :=
  match r with
  | Success recs w _ x => Success recs w "sensor" x
  | other => other
  end.

(** Every model feature of the reading is a number inside the interval the
    profile draws it from. *)
Definition within_profile (ranges : profile) (data : gmap string pyval)
    : bool :=
  forallb
    (fun ck : string * string =>
       match dict_get ranges ck.2, data !! ck.1 with
       | Ok (lo, hi), Some v =>
           match py_float v with
           | Ok x => (lo <=? x)%float && (x <=? hi)%float
           | Raise _ => false
           end
       | _, _ => false
       end)
    ROW_KEYS.

(** Every interval of the profile lies inside the realistic range of its
    column. *)
Definition profile_inside (ranges : profile) : bool :=
  forallb
    (fun ck : string * string =>
       match dict_get ranges ck.2, dict_get REALISTIC_RANGES ck.1 with
       | Ok (lo, hi), Ok (low, high, _) =>
           (float_of_Z low <=? lo)%float && (hi <=? float_of_Z high)%float
       | _, _ => false
       end)
    ROW_KEYS.

(** The moisture of the reading is absent, null, or a number inside its
    range. *)
Definition moisture_plausible (data : gmap string pyval) : bool :=
  convertible data "moisture"
  && negb (violates data ("moisture", (0%Z, 100%Z, "Soil Moisture"))).

(** Replaces the specification of a literal bound by its value. *)
Ltac eval_bounds :=
  repeat match goal with
    | |- context [Prim2SF (float_of_Z ?z)] =>
        let c := eval vm_compute in (Prim2SF (float_of_Z z)) in
        change (Prim2SF (float_of_Z z)) with c
    | H : context [Prim2SF (float_of_Z ?z)] |- _ =>
        let c := eval vm_compute in (Prim2SF (float_of_Z z)) in
        change (Prim2SF (float_of_Z z)) with c in H
    end.

(** ** Properties *)

Lemma bind_ok {A B : Type} (r : result A) (k : A -> result B) (b : B) :
  bind r k = Ok b -> exists a, r = Ok a /\ k a = Ok b.
Proof. destruct r as [a|e]; simpl; [eauto | discriminate]. Qed.

Lemma check_field_step data ws tp entry :
  convertible data entry.1 = true ->
  check_field data (ws, tp) entry =
    Ok (ws ++ (if violates data entry then [warning_text data entry] else []),
        accumulate tp [violates data entry]).
Proof.
  destruct entry as [field [[low high] label]].
  unfold convertible, violates, warning_text, check_field, out_of_range,
    accumulate; cbn [fst snd fold_left].
  destruct (data !! field) as [v|] eqn:Hv;
    [ | intros _; by rewrite app_nil_r ].
  assert (Hcase : v = PyNone \/
            (forall (T : Type) (a b : T),
                match v with PyNone => a | _ => b end = b)).
  { destruct v; auto. }
  destruct Hcase as [-> | Hcase]; [ intros _; by rewrite app_nil_r | ].
  rewrite !Hcase.
  destruct (py_float v) as [x|e]; [ intros _ | discriminate ].
  cbn [bind].
  destruct (x <? float_of_Z low)%float; cbn [orb]; [ reflexivity | ].
  destruct (float_of_Z high <? x)%float; [ reflexivity | ].
  by rewrite app_nil_r.
Qed.

Lemma check_loop data es ws tp :
  forallb (fun entry => convertible data entry.1) es = true ->
  for_each (check_field data) (ws, tp) es =
    Ok (ws ++ map (warning_text data) (List.filter (violates data) es),
        accumulate tp (map (violates data) es)).
Proof.
  revert ws tp.
  induction es as [|entry es IH]; intros ws tp Hes.
  - cbn. by rewrite app_nil_r.
  - cbn [forallb] in Hes. apply andb_prop in Hes as [Hentry Hes].
    cbn [for_each]. rewrite check_field_step by exact Hentry.
    cbn [bind]. rewrite IH by exact Hes.
    cbn [List.filter map].
    destruct (violates data entry); cbn [map];
      [ by rewrite <- app_assoc | by rewrite app_nil_r ].
Qed.

Lemma count_true_filter {X : Type} (f : X -> bool) (l : list X) :
  length (List.filter f l) = count_true (map f l).
Proof.
  unfold count_true.
  induction l as [|x l IH]; [ reflexivity | ].
  cbn [List.filter map]. destruct (f x); cbn [length]; by rewrite IH.
Qed.

(** The cap hides the rounding of the repeated additions: over the eight
    ranged fields, adding 0.1 per violation and multiplying 0.1 by the
    number of violations agree once both are capped at 0.5. *)
Lemma capped_accumulate (b1 b2 b3 b4 b5 b6 b7 b8 : bool) :
  py_min (accumulate 0%float [b1; b2; b3; b4; b5; b6; b7; b8]) 0.5%float =
  py_min
    (0.1 * float_of_Z (Z.of_nat (count_true [b1; b2; b3; b4; b5; b6; b7; b8])))%float
    0.5%float.
Proof.
  destruct b1, b2, b3, b4, b5, b6, b7, b8; vm_compute; reflexivity.
Qed.

Lemma check_realistic_ranges_numeric data :
  numeric data = true ->
  check_realistic_ranges data =
    Ok (map (warning_text data) (List.filter (violates data) REALISTIC_RANGES),
        py_min (0.1 * float_of_Z (Z.of_nat (violation_count data)))%float
          0.5%float).
Proof.
  intros Hnum. unfold check_realistic_ranges.
  rewrite check_loop by exact Hnum. cbn [bind app].
  unfold violation_count. rewrite count_true_filter.
  f_equal. f_equal. apply capped_accumulate.
Qed.

Lemma absent_not_violating data entry :
  is_none (data !! entry.1) = true -> violates data entry = false.
Proof.
  destruct entry as [field [[low high] label]]; cbn [fst].
  unfold violates. destruct (data !! field) as [[]|]; done.
Qed.

(** C1, as the code has it: on a numeric dictionary (every ranged field
    absent, null, or accepted by [float]) [check_realistic_ranges] returns,
    and its penalty is min(0.10 x violationCount, 0.50), where violationCount
    counts the ranged fields present with a value strictly outside their
    range; there is one warning per violation, and an absent (or null) field
    is no violation. *)
Theorem check_realistic_ranges_penalty (data : gmap string pyval) :
  numeric data = true ->
  exists warnings,
    check_realistic_ranges data =
      Ok (warnings,
          py_min (0.1 * float_of_Z (Z.of_nat (violation_count data)))%float
            0.5%float)
    /\ length warnings = violation_count data
    /\ (forall entry, is_none (data !! entry.1) = true ->
          violates data entry = false).
Proof.
  intros Hnum. eexists. split; [ by apply check_realistic_ranges_numeric | ].
  split; [ by rewrite length_map | apply absent_not_violating ].
Qed.

(** *** Order on floats, from the specification of the primitives *)

Lemma SFcompare_antisym (a b : spec_float) :
  SFcompare b a = option_map CompOpp (SFcompare a b).
Proof.
  destruct a as [sa|sa| |sa ma ea], b as [sb|sb| |sb mb eb]; cbn;
    try destruct sa; try destruct sb; cbn; try reflexivity.
  all: rewrite (Z.compare_antisym ea eb); destruct (ea ?= eb)%Z; cbn;
    try reflexivity.
  all: rewrite (Pos.compare_cont_antisym ma mb Eq); cbn; try reflexivity.
  all: destruct (Pos.compare_cont _ _ _); reflexivity.
Qed.

Lemma is_nan_spec (x : float) : is_nan x = false -> Prim2SF x <> S754_nan.
Proof.
  unfold is_nan. rewrite FloatAxioms.eqb_spec. unfold SFeqb.
  intros H E. rewrite E in H. discriminate.
Qed.

Lemma SFcompare_total (a b : spec_float) :
  a <> S754_nan -> b <> S754_nan -> exists c, SFcompare a b = Some c.
Proof.
  destruct a as [sa|sa| |sa ma ea], b as [sb|sb| |sb mb eb]; cbn; intros;
    try congruence; eauto.
Qed.

Lemma ltb_false_leb (x c : float) :
  is_nan x = false -> is_nan c = false ->
  (x <? c)%float = false -> (c <=? x)%float = true.
Proof.
  intros Hx Hc. rewrite ltb_spec, leb_spec. unfold SFltb, SFleb.
  rewrite (SFcompare_antisym (Prim2SF x) (Prim2SF c)).
  destruct (SFcompare_total (Prim2SF x) (Prim2SF c)) as [o Ho];
    auto using is_nan_spec.
  rewrite Ho. destruct o; cbn; congruence.
Qed.

Lemma eqb_not_ltb (a b : float) :
  (a =? b)%float = true -> (a <? b)%float = false /\ (b <? a)%float = false.
Proof.
  rewrite FloatAxioms.eqb_spec, !ltb_spec. unfold SFeqb, SFltb.
  rewrite (SFcompare_antisym (Prim2SF a) (Prim2SF b)).
  destruct (SFcompare (Prim2SF a) (Prim2SF b)) as [[]|]; cbn; intros;
    try discriminate; auto.
Qed.

Lemma Prim2SF_floor :
  Prim2SF 0.01 = S754_finite false 5764607523034235 (-59).
Proof. vm_compute. reflexivity. Qed.

Lemma Prim2SF_zero : Prim2SF 0 = S754_zero false.
Proof. vm_compute. reflexivity. Qed.

Lemma not_below_floor_positive (x : float) :
  (x <? 0.01)%float = false -> (x <=? 0)%float = false.
Proof.
  rewrite ltb_spec, leb_spec, Prim2SF_floor, Prim2SF_zero.
  unfold SFltb, SFleb.
  destruct (Prim2SF x) as [s|s| |s m e]; try destruct s; cbn [SFcompare];
    congruence.
Qed.

Lemma py_max_floor (x : float) : (py_max x 0.01 <? 0.01)%float = false.
Proof.
  unfold py_max.
  destruct (x <? 0.01)%float eqn:E; [ vm_compute; reflexivity | exact E ].
Qed.

Lemma py_max_not_nan (x : float) :
  is_nan x = false -> is_nan (py_max x 0.01) = false.
Proof.
  unfold py_max. destruct (x <? 0.01)%float; [ reflexivity | auto ].
Qed.

(** *** The loop over the best classes *)

Lemma append_loop_ok probabilities class_labels penalty acc idxs :
  Forall (fun i => i < length probabilities /\ i < length class_labels) idxs ->
  for_each (append_recommendation probabilities class_labels penalty) acc idxs
  = Ok (acc ++ map (recommendation_of probabilities class_labels penalty) idxs).
Proof.
  revert acc. induction idxs as [|idx idxs IH]; intros acc Hall.
  - cbn. by rewrite app_nil_r.
  - apply Forall_cons in Hall as [[Hp Hl] Hall].
    cbn [for_each]. unfold append_recommendation at 1, index.
    destruct (lookup_lt_is_Some_2 _ _ Hp) as [raw Hraw].
    destruct (lookup_lt_is_Some_2 _ _ Hl) as [label Hlabel].
    rewrite Hraw, Hlabel. cbn [bind]. rewrite IH by exact Hall.
    cbn [map]. rewrite <- app_assoc. cbn [app].
    unfold recommendation_of at 2.
    by rewrite (nth_lookup_Some _ _ _ _ Hraw), (nth_lookup_Some _ _ _ _ Hlabel).
Qed.

Lemma append_loop_inv probabilities class_labels penalty acc idxs recs :
  for_each (append_recommendation probabilities class_labels penalty) acc idxs
  = Ok recs ->
  Forall (fun i => i < length probabilities /\ i < length class_labels) idxs.
Proof.
  revert acc. induction idxs as [|idx idxs IH]; intros acc Hrun.
  - constructor.
  - cbn [for_each] in Hrun. apply bind_ok in Hrun as (acc' & Hstep & Hrun).
    constructor; [ | by eapply IH ].
    unfold append_recommendation, index in Hstep.
    destruct (probabilities !! idx) eqn:Hp; [ | discriminate ].
    destruct (class_labels !! idx) eqn:Hl; [ | discriminate ].
    split; by eapply lookup_lt_Some.
Qed.

Lemma sorts_bounds probabilities idx :
  argsort probabilities ≡ₚ seq 0 (length probabilities) ->
  idx ∈ top_indices probabilities -> idx < length probabilities.
Proof.
  intros Hperm Hin. unfold top_indices in Hin.
  apply elem_of_take in Hin as (i & Hi & _).
  assert (Hidx : idx ∈ reverse (argsort probabilities))
    by (apply list_elem_of_lookup; eauto).
  rewrite elem_of_reverse, Hperm, elem_of_seq in Hidx. lia.
Qed.

Lemma build_recommendations_ok probabilities class_labels penalty :
  argsort probabilities ≡ₚ seq 0 (length probabilities) ->
  length class_labels = length probabilities ->
  build_recommendations probabilities class_labels penalty =
    Ok (map (recommendation_of probabilities class_labels penalty)
          (top_indices probabilities)).
Proof.
  intros Hperm Hlen. unfold build_recommendations.
  rewrite append_loop_ok; [ reflexivity | ].
  apply Forall_forall. intros idx Hin. rewrite Hlen.
  split; by apply sorts_bounds.
Qed.

Lemma top_indices_NoDup probabilities :
  argsort probabilities ≡ₚ seq 0 (length probabilities) ->
  NoDup (top_indices probabilities).
Proof.
  intros Hperm. unfold top_indices.
  assert (Hnd : NoDup (reverse (argsort probabilities)))
    by (rewrite reverse_Permutation, Hperm; apply NoDup_seq).
  rewrite <- (take_drop 3 (reverse (argsort probabilities))) in Hnd.
  by apply NoDup_app in Hnd as [Hnd _].
Qed.

(** C7: with one label per class and [argsort] returning the indices of
    the array, the loop does not raise and returns min(3, n)
    recommendations for n classes, one for each of as many distinct
    classes. *)
Theorem recommendations_length (probabilities : list float)
    (class_labels : list string) (penalty : float) :
  argsort probabilities ≡ₚ seq 0 (length probabilities) ->
  length class_labels = length probabilities ->
  exists recs,
    build_recommendations probabilities class_labels penalty = Ok recs
    /\ length recs = Nat.min 3 (length probabilities)
    /\ recs = map (recommendation_of probabilities class_labels penalty)
               (top_indices probabilities)
    /\ NoDup (top_indices probabilities)
    /\ Forall (fun idx => idx < length probabilities)
         (top_indices probabilities).
Proof.
  intros Hperm Hlen. eexists.
  split; [ by apply build_recommendations_ok | ].
  split.
  { rewrite length_map. unfold top_indices.
    by rewrite length_take, length_reverse, Hperm, length_seq. }
  split; [ reflexivity | ].
  split; [ by apply top_indices_NoDup | ].
  apply Forall_forall. intros idx Hin. by apply sorts_bounds.
Qed.

(** C2: every returned entry reports, as a percentage string,
    max(raw - penalty, 0.01) of the raw probability of its class; that
    fraction is never below 0.01, never zero or negative, and at least 0.01
    whenever raw - penalty is a number. *)
Theorem reported_confidence (probabilities : list float)
    (class_labels : list string) (penalty : float)
    (recs : list recommendation) :
  build_recommendations probabilities class_labels penalty = Ok recs ->
  Forall2
    (fun idx r =>
       exists raw,
         probabilities !! idx = Some raw
         /\ confidence r =
              format_0f (py_max (raw - penalty) 0.01 * 100)%float +:+ "%"
         /\ (py_max (raw - penalty) 0.01 <? 0.01)%float = false
         /\ (py_max (raw - penalty) 0.01 <=? 0)%float = false
         /\ (is_nan (raw - penalty)%float = false ->
              (0.01 <=? py_max (raw - penalty) 0.01)%float = true))
    (top_indices probabilities) recs.
Proof.
  intros Hrun. unfold build_recommendations in Hrun.
  pose proof (append_loop_inv _ _ _ _ _ _ Hrun) as Hall.
  rewrite append_loop_ok in Hrun by exact Hall.
  injection Hrun as <-. cbn [app].
  apply Forall2_fmap_r, Forall_Forall2_diag.
  eapply Forall_impl; [ exact Hall | ].
  intros idx [Hp _]. cbn beta.
  destruct (lookup_lt_is_Some_2 _ _ Hp) as [raw Hraw].
  exists raw. split; [ exact Hraw | ].
  unfold recommendation_of, confidence_pct, adjusted_confidence.
  cbn [confidence]. rewrite (nth_lookup_Some _ _ _ _ Hraw).
  split; [ reflexivity | ].
  split; [ apply py_max_floor | ].
  split; [ apply not_below_floor_positive, py_max_floor | ].
  intros Hnan. apply ltb_false_leb;
    [ by apply py_max_not_nan | reflexivity | apply py_max_floor ].
Qed.

Lemma StronglySorted_reverse {X : Type} (R : relation X) (l : list X) :
  StronglySorted R l -> StronglySorted (flip R) (reverse l).
Proof.
  induction 1 as [|x l Hl IH Hx]; [ constructor | ].
  rewrite reverse_cons. apply StronglySorted_app_2.
  - intros x1 x2 Hx1 Hx2. apply list_elem_of_singleton in Hx2 as ->.
    rewrite elem_of_reverse in Hx1. unfold flip.
    rewrite Forall_forall in Hx. by apply Hx.
  - exact IH.
  - repeat constructor.
Qed.

Lemma top_indices_descending probabilities :
  StronglySorted (prob_le probabilities) (argsort probabilities) ->
  StronglySorted (flip (prob_le probabilities)) (top_indices probabilities)
  /\ (forall i j,
        i ∈ top_indices probabilities ->
        j ∈ argsort probabilities ->
        j ∉ top_indices probabilities ->
        prob_le probabilities j i).
Proof.
  intros Hsorted. apply StronglySorted_reverse in Hsorted.
  unfold top_indices.
  rewrite <- (take_drop 3 (reverse (argsort probabilities))) in Hsorted.
  split; [ by eapply StronglySorted_app_1_l | ].
  intros i j Hi Hj Hout.
  rewrite <- elem_of_reverse in Hj.
  rewrite <- (take_drop 3 (reverse (argsort probabilities))) in Hj.
  apply elem_of_app in Hj as [Hj | Hj]; [ done | ].
  by apply (StronglySorted_app_1_elem_of _ _ _ _ _ Hsorted).
Qed.

Lemma top_indices_reverse_positions probabilities a b i j :
  top_indices probabilities !! a = Some i ->
  top_indices probabilities !! b = Some j ->
  a < b ->
  exists a' b',
    argsort probabilities !! a' = Some i
    /\ argsort probabilities !! b' = Some j
    /\ b' < a'.
Proof.
  unfold top_indices. intros Ha Hb Hab.
  apply lookup_take_Some in Ha as [Ha _].
  apply lookup_take_Some in Hb as [Hb _].
  apply reverse_lookup_Some in Ha as [Ha Hla].
  apply reverse_lookup_Some in Hb as [Hb Hlb].
  eexists _, _. repeat split; [ exact Ha | exact Hb | lia ].
Qed.

(** C3, as the code has it: when [argsort] returns the class indices in
    ascending order of probability, the recommendations are the classes of
    [top_indices] in that order, their raw probabilities descend, no class
    left out has a higher probability than a returned one, and two
    returned classes stand in the reverse of the order [argsort] gave
    them; nothing puts equal probabilities in class order. *)
Theorem recommendations_descending (probabilities : list float)
    (class_labels : list string) (penalty : float) :
  sorts probabilities (argsort probabilities) ->
  length class_labels = length probabilities ->
  exists recs,
    build_recommendations probabilities class_labels penalty = Ok recs
    /\ recs = map (recommendation_of probabilities class_labels penalty)
               (top_indices probabilities)
    /\ StronglySorted (flip (prob_le probabilities))
         (top_indices probabilities)
    /\ (forall i j,
          i ∈ top_indices probabilities ->
          j < length probabilities ->
          j ∉ top_indices probabilities ->
          prob_le probabilities j i)
    /\ (forall a b i j,
          top_indices probabilities !! a = Some i ->
          top_indices probabilities !! b = Some j ->
          a < b ->
          exists a' b',
            argsort probabilities !! a' = Some i
            /\ argsort probabilities !! b' = Some j
            /\ b' < a').
Proof.
  intros [Hperm Hsorted] Hlen. eexists.
  split; [ by apply build_recommendations_ok | ].
  split; [ reflexivity | ].
  destruct (top_indices_descending _ Hsorted) as [Hdesc Hrest].
  split; [ exact Hdesc | ].
  split; [ | apply top_indices_reverse_positions ].
  intros i j Hi Hj Hout. apply Hrest; [ done | | done ].
  rewrite Hperm, elem_of_seq. lia.
Qed.

(** *** Validation *)

Lemma not_none_match (v : pyval) :
  v <> PyNone ->
  forall (T : Type) (a b : T), match v with PyNone => a | _ => b end = b.
Proof. destruct v; congruence. Qed.

Lemma none_or_not (v : pyval) : {v = PyNone} + {v <> PyNone}.
Proof. destruct v; (by left) || (by right). Qed.

Lemma py_float_exn (v : pyval) (e : pyexn) :
  py_float v = Raise e -> e = TypeError \/ e = ValueError \/ e = OverflowError.
Proof.
  unfold py_float. intros H.
  destruct v; repeat case_match; simplify_eq; auto.
Qed.

Lemma validate_field_step data errors field :
  raises_uncaught data field = false ->
  validate_field data errors field =
    Ok (errors ++ option_list (field_error data field)).
Proof.
  unfold raises_uncaught, validate_field, field_error.
  destruct (data !! field) as [v|]; [ | done ].
  destruct (none_or_not v) as [-> | Hv]; [ done | ].
  rewrite !(not_none_match v Hv).
  destruct (py_float v) as [x|e]; [ intros _; cbn; by rewrite app_nil_r | ].
  destruct e; done.
Qed.

Lemma validate_field_ok data errors field errors' :
  validate_field data errors field = Ok errors' ->
  raises_uncaught data field = false.
Proof.
  unfold raises_uncaught, validate_field.
  destruct (data !! field) as [v|]; [ | done ].
  destruct (none_or_not v) as [-> | Hv]; [ done | ].
  rewrite !(not_none_match v Hv).
  destruct (py_float v) as [x|e]; [ done | ].
  destruct e; done.
Qed.

Lemma validate_loop data fields errors :
  Forall (fun field => raises_uncaught data field = false) fields ->
  for_each (validate_field data) errors fields =
    Ok (errors ++ omap (field_error data) fields).
Proof.
  revert errors. induction fields as [|field fields IH]; intros errors Hall.
  - cbn. by rewrite app_nil_r.
  - apply Forall_cons in Hall as [Hfield Hall].
    cbn [for_each]. rewrite validate_field_step by exact Hfield.
    cbn [bind]. rewrite IH by exact Hall. cbn [omap list_omap].
    rewrite <- app_assoc. by destruct (field_error data field).
Qed.

Lemma validate_loop_ok data fields errors errors' :
  for_each (validate_field data) errors fields = Ok errors' ->
  Forall (fun field => raises_uncaught data field = false) fields.
Proof.
  revert errors. induction fields as [|field fields IH]; intros errors Hrun.
  - constructor.
  - cbn [for_each] in Hrun. apply bind_ok in Hrun as (mid & Hstep & Hrun).
    constructor; [ by eapply validate_field_ok | by eapply IH ].
Qed.

Lemma field_error_none data field :
  field_error data field = None <-> valid_field data field.
Proof.
  unfold field_error, valid_field. split.
  - destruct (data !! field) as [v|]; [ | done ].
    destruct (none_or_not v) as [-> | Hv]; [ done | ].
    rewrite (not_none_match v Hv).
    destruct (py_float v) as [x|e] eqn:Hx; [ eauto | done ].
  - intros (v & x & -> & Hv & Hx). rewrite (not_none_match v Hv).
    by rewrite Hx.
Qed.

Lemma omap_nil_iff {X Y : Type} (f : X -> option Y) (l : list X) :
  omap f l = [] <-> Forall (fun x => f x = None) l.
Proof.
  induction l as [|x l IH]; cbn.
  - split; [ constructor | done ].
  - rewrite Forall_cons. destruct (f x); [ | tauto ].
    split; [ done | intros [? _]; done ].
Qed.

(** What [validate_input] returns on a dictionary none of whose required
    fields makes [float] raise past the handler: one error per offending
    field, all of them, in the order of [REQUIRED_FIELDS]; none exactly when
    every required field is present, not null and convertible. *)
Theorem validate_input_collects (data : gmap string pyval) :
  Forall (fun field => raises_uncaught data field = false) REQUIRED_FIELDS ->
  validate_input (Some data) = Ok (omap (field_error data) REQUIRED_FIELDS)
  /\ (omap (field_error data) REQUIRED_FIELDS = [] <->
      Forall (valid_field data) REQUIRED_FIELDS).
Proof.
  intros Hall. split.
  - unfold validate_input. by rewrite validate_loop.
  - rewrite omap_nil_iff. apply Forall_iff. intros field.
    apply field_error_none.
Qed.

Lemma validated_fields data :
  validate_input (Some data) = Ok [] ->
  Forall (valid_field data) REQUIRED_FIELDS.
Proof.
  intros Hrun. pose proof Hrun as Hok. unfold validate_input in Hok.
  apply validate_loop_ok in Hok.
  unfold validate_input in Hrun. rewrite validate_loop in Hrun by exact Hok.
  assert (Hnil : [] ++ omap (field_error data) REQUIRED_FIELDS = [])
    by congruence.
  rewrite app_nil_l in Hnil. apply omap_nil_iff in Hnil. eapply Forall_impl; [ exact Hnil | ].
  intros field. apply field_error_none.
Qed.

Lemma validate_field_raise data errors field e :
  validate_field data errors field = Raise e -> e = OverflowError.
Proof.
  unfold validate_field.
  destruct (data !! field) as [v|]; [ | done ].
  destruct (none_or_not v) as [-> | Hv]; [ done | ].
  rewrite (not_none_match v Hv).
  destruct (py_float v) as [x|e'] eqn:Hx; [ done | ].
  destruct (py_float_exn _ _ Hx) as [-> | [-> | ->]]; congruence.
Qed.

Lemma validate_loop_raise data fields errors e :
  for_each (validate_field data) errors fields = Raise e -> e = OverflowError.
Proof.
  revert errors. induction fields as [|field fields IH]; intros errors;
    [ done | ].
  cbn [for_each].
  destruct (validate_field data errors field) as [mid|e'] eqn:Hstep;
    cbn [bind]; [ apply IH | ].
  intros [= <-]. by eapply validate_field_raise.
Qed.

(** When [float] raises [OverflowError] on a required field (an integer
    beyond the range of a float), [validate_input] returns no error list: the
    exception leaves it. *)
Theorem validate_input_overflow (data : gmap string pyval) (field : string) :
  field ∈ REQUIRED_FIELDS ->
  raises_uncaught data field = true ->
  validate_input (Some data) = Raise OverflowError.
Proof.
  intros Hin Hraise. unfold validate_input.
  destruct (for_each (validate_field data) [] REQUIRED_FIELDS)
    as [errors|e] eqn:Hrun.
  - apply validate_loop_ok in Hrun. rewrite Forall_forall in Hrun.
    specialize (Hrun field Hin). congruence.
  - by rewrite (validate_loop_raise _ _ _ _ Hrun).
Qed.

(** *** Rainfall fallback *)

Lemma historical_default :
  getitem HISTORICAL_RAINFALL_AVERAGES "default" = Ok 120%float.
Proof. vm_compute. reflexivity. Qed.

Lemma get_default_rainfall_ok (mock_rainfall : result float) :
  exists r, get_default_rainfall mock_rainfall = Ok r.
Proof.
  unfold get_default_rainfall.
  destruct (fetch_rainfall_from_weather_api mock_rainfall) as [x|];
    [ by exists x | exists 120%float; apply historical_default ].
Qed.

(** C6: [get_default_rainfall] never raises; it returns the value of the
    first-tier lookup when that lookup has one, and 120.0 when the lookup
    returned [None]. *)
Theorem get_default_rainfall_total (mock_rainfall : result float) :
  exists r,
    get_default_rainfall mock_rainfall = Ok r
    /\ match fetch_rainfall_from_weather_api mock_rainfall with
       | Some api_rainfall => r = api_rainfall
       | None => r = 120%float
       end.
Proof.
  unfold get_default_rainfall.
  destruct (fetch_rainfall_from_weather_api mock_rainfall) as [x|].
  - by exists x.
  - exists 120%float. split; [ apply historical_default | reflexivity ].
Qed.

(** *** The handler *)

Lemma for_each_app {S X : Type} (body : S -> X -> result S) (s : S)
    (l1 l2 : list X) :
  for_each body s (l1 ++ l2) =
    (s' <-- for_each body s l1 ;; for_each body s' l2).
Proof.
  revert s. induction l1 as [|x l1 IH]; intros s; [ reflexivity | ].
  cbn [app for_each]. destruct (body s x); cbn [bind]; [ apply IH | done ].
Qed.

Lemma valid_float_item data field :
  valid_field data field -> exists x, float_item data field = Ok x.
Proof.
  intros (v & x & Hv & _ & Hx). exists x.
  unfold float_item, getitem. by rewrite Hv.
Qed.

Lemma valid_convertible data field :
  valid_field data field -> convertible data field = true.
Proof.
  intros (v & x & Hv & Hnone & Hx). unfold convertible.
  rewrite Hv, (not_none_match v Hnone). by rewrite Hx.
Qed.

Lemma float_item_convertible data field x :
  float_item data field = Ok x -> convertible data field = true.
Proof.
  unfold float_item, getitem, convertible.
  destruct (data !! field) as [v|]; [ cbn [bind] | done ].
  intros Hx. rewrite Hx. by destruct v.
Qed.

Lemma float_item_present data field x :
  float_item data field = Ok x ->
  exists v, data !! field = Some v /\ v <> PyNone /\ py_float v = Ok x.
Proof.
  unfold float_item, getitem.
  destruct (data !! field) as [v|]; [ cbn [bind] | done ].
  intros Hx. exists v. split; [ done | ]. split; [ | done ].
  intros ->. discriminate.
Qed.

Lemma valid_field_insert data field key v :
  field <> key -> valid_field data field ->
  valid_field (<[key := v]> data) field.
Proof.
  intros Hne (w & x & Hw & Hnone & Hx). exists w, x.
  by rewrite lookup_insert_ne.
Qed.

Lemma numeric_intro data :
  Forall (valid_field data) REQUIRED_FIELDS ->
  convertible data "rainfall" = true ->
  numeric data = true.
Proof.
  intros Hall Hrain. rewrite Forall_forall in Hall.
  unfold numeric, REALISTIC_RANGES. cbn [forallb fst].
  rewrite Hrain.
  rewrite !valid_convertible; [ reflexivity | .. ];
    apply Hall; unfold REQUIRED_FIELDS; repeat constructor.
Qed.

Lemma feature_values_run data n p k t h ph r :
  float_item data "N" = Ok n ->
  float_item data "P" = Ok p ->
  float_item data "K" = Ok k ->
  float_item data "temperature" = Ok t ->
  float_item data "humidity" = Ok h ->
  float_item data "ph" = Ok ph ->
  float_item data "rainfall" = Ok r ->
  feature_values data = Ok [n; p; k; t; h; ph; r].
Proof.
  intros Hn Hp Hk Ht Hh Hph Hr. unfold feature_values.
  by rewrite Hn, Hp, Hk, Ht, Hh, Hph, Hr.
Qed.

Lemma validated_feature_values data r :
  Forall (valid_field data) REQUIRED_FIELDS ->
  float_item data "rainfall" = Ok r ->
  exists n p k t h ph, feature_values data = Ok [n; p; k; t; h; ph; r].
Proof.
  intros Hall Hr. rewrite Forall_forall in Hall.
  assert (Hin : forall field, field ∈ REQUIRED_FIELDS ->
                  exists x, float_item data field = Ok x)
    by (intros field Hfield; by apply valid_float_item, Hall).
  destruct (Hin "N") as [n Hn]; [ unfold REQUIRED_FIELDS; repeat constructor | ].
  destruct (Hin "P") as [p Hp]; [ unfold REQUIRED_FIELDS; repeat constructor | ].
  destruct (Hin "K") as [k Hk]; [ unfold REQUIRED_FIELDS; repeat constructor | ].
  destruct (Hin "temperature") as [t Ht];
    [ unfold REQUIRED_FIELDS; repeat constructor | ].
  destruct (Hin "humidity") as [h Hh];
    [ unfold REQUIRED_FIELDS; repeat constructor | ].
  destruct (Hin "ph") as [ph Hph]; [ unfold REQUIRED_FIELDS; repeat constructor | ].
  exists n, p, k, t, h, ph. by apply feature_values_run.
Qed.

Lemma recommend_validated_filled model sc mock_rainfall data data' source x :
  fill_rainfall mock_rainfall data = Ok (data', source) ->
  Forall (valid_field data') REQUIRED_FIELDS ->
  float_item data' "rainfall" = Ok x ->
  engine_answers model sc ->
  exists n p k t h ph recs ws,
    feature_values data' = Ok [n; p; k; t; h; ph; x]
    /\ recommend_validated model sc mock_rainfall data =
         Ok (Success recs (or_none ws) source x).
Proof.
  intros Hfill Hall Hx Hengine.
  destruct (validated_feature_values _ _ Hall Hx)
    as (n & p & k & t & h & ph & Hfv).
  exists n, p, k, t, h, ph.
  destruct (Hengine [n; p; k; t; h; ph; x])
    as (scaled & probs & Hsc & Hpp & Hlen & Hperm).
  pose proof (numeric_intro _ Hall (float_item_convertible _ _ _ Hx)) as Hnum.
  eexists _, _. split; [ exact Hfv | ].
  unfold recommend_validated. rewrite Hfill. cbn [bind].
  rewrite (check_realistic_ranges_numeric _ Hnum). cbn [bind].
  rewrite Hfv. cbn [bind]. rewrite Hsc. cbn [bind]. rewrite Hpp. cbn [bind].
  rewrite (build_recommendations_ok _ _ _ Hperm Hlen). cbn [bind].
  rewrite Hx. cbn [bind]. reflexivity.
Qed.

Lemma recommend_crop_validated model sc mock_rainfall data :
  validate_input (Some data) = Ok [] ->
  recommend_crop (Some model) (Some sc) mock_rainfall (Some data) =
    match recommend_validated model sc mock_rainfall data with
    | Ok r => r
    | Raise e => ServerError e
    end.
Proof.
  intros Hvalid. unfold recommend_crop, recommend_crop_try.
  by rewrite Hvalid.
Qed.

Lemma fill_rainfall_valid mock_rainfall body data source :
  fill_rainfall mock_rainfall body = Ok (data, source) ->
  Forall (valid_field body) REQUIRED_FIELDS ->
  Forall (valid_field data) REQUIRED_FIELDS.
Proof.
  unfold fill_rainfall. destruct (is_none (body !! "rainfall"));
    [ | by intros [= <- _] ].
  destruct (get_default_rainfall mock_rainfall) as [r|e]; cbn [bind];
    [ | discriminate ].
  intros [= <- _] Hall. rewrite Forall_forall in Hall. apply Forall_forall.
  intros field Hfield. apply valid_field_insert; [ | by apply Hall ].
  intros ->. unfold REQUIRED_FIELDS in Hfield.
  repeat (apply elem_of_cons in Hfield as [Hfield | Hfield];
          [ discriminate | ]).
  by apply elem_of_nil in Hfield.
Qed.

(** The handler on a validated body whose rainfall, once filled in,
    converts: the row of the filled reading goes to the scaler, what the
    scaler returns goes to the classifier, and the answer is made of what
    comes back; an exception of either is the answer 500. *)
Lemma recommend_crop_on_row model sc mock_rainfall body data source r :
  validate_input (Some body) = Ok [] ->
  fill_rainfall mock_rainfall body = Ok (data, source) ->
  float_item data "rainfall" = Ok r ->
  exists n p k t h ph ws penalty,
    feature_values data = Ok [n; p; k; t; h; ph; r]
    /\ check_realistic_ranges data = Ok (ws, penalty)
    /\ recommend_crop (Some model) (Some sc) mock_rainfall (Some body) =
         match
           engine_recommendations model sc [n; p; k; t; h; ph; r] penalty
         with
         | Ok recs => Success recs (or_none ws) source r
         | Raise e => ServerError e
         end.
Proof.
  intros Hvalid Hfill Hr.
  pose proof (fill_rainfall_valid _ _ _ _ Hfill (validated_fields _ Hvalid))
    as Hall.
  destruct (validated_feature_values _ _ Hall Hr)
    as (n & p & k & t & h & ph & Hfv).
  pose proof (numeric_intro _ Hall (float_item_convertible _ _ _ Hr)) as Hnum.
  pose proof (check_realistic_ranges_numeric _ Hnum) as Hcheck.
  exists n, p, k, t, h, ph. eexists _, _.
  split; [ exact Hfv | ]. split; [ exact Hcheck | ].
  rewrite (recommend_crop_validated _ _ _ _ Hvalid).
  unfold recommend_validated, engine_recommendations.
  rewrite Hfill. cbn [bind]. rewrite Hcheck. cbn [bind].
  rewrite Hfv. cbn [bind].
  destruct (transform sc [n; p; k; t; h; ph; r]) as [scaled|e]; cbn [bind];
    [ | reflexivity ].
  destruct (predict_proba model scaled) as [probabilities|e]; cbn [bind];
    [ | reflexivity ].
  destruct (build_recommendations probabilities (classes_ model) _)
    as [recs|e]; cbn [bind]; [ | reflexivity ].
  by rewrite Hr.
Qed.

Lemma engine_recommendations_ok model sc features penalty :
  engine_answers model sc ->
  exists recs, engine_recommendations model sc features penalty = Ok recs.
Proof.
  intros Hengine.
  destruct (Hengine features) as (scaled & probs & Hsc & Hpp & Hlen & Hperm).
  unfold engine_recommendations. rewrite Hsc. cbn [bind]. rewrite Hpp.
  cbn [bind]. rewrite (build_recommendations_ok _ _ _ Hperm Hlen). by eexists.
Qed.

(** C5, as the code has it: for a request that passes validation.  Without
    a rainfall value (absent or null) the value of [get_default_rainfall] is
    the last entry of the row the handler hands to the scaler: the answer is
    that of the scaler and the classifier on this row, the exception of
    either (a 500) or a success whose metadata say "estimated (fallback)"
    and carry that value; when the artifacts answer it is the success.  With
    a rainfall value that [float] accepts, the same holds of its float, and
    the metadata say "sensor". *)
Theorem rainfall_source_recorded (model : classifier) (sc : scaler)
    (mock_rainfall : result float) (data : gmap string pyval) :
  validate_input (Some data) = Ok [] ->
  (is_none (data !! "rainfall") = true ->
   exists r n p k t h ph ws penalty,
     get_default_rainfall mock_rainfall = Ok r
     /\ feature_values (<["rainfall" := PyFloat r]> data) =
          Ok [n; p; k; t; h; ph; r]
     /\ check_realistic_ranges (<["rainfall" := PyFloat r]> data) =
          Ok (ws, penalty)
     /\ recommend_crop (Some model) (Some sc) mock_rainfall (Some data) =
          match
            engine_recommendations model sc [n; p; k; t; h; ph; r] penalty
          with
          | Ok recs => Success recs (or_none ws) "estimated (fallback)" r
          | Raise e => ServerError e
          end
     /\ (engine_answers model sc ->
         exists recs,
           engine_recommendations model sc [n; p; k; t; h; ph; r] penalty =
             Ok recs
           /\ recommend_crop (Some model) (Some sc) mock_rainfall (Some data) =
                Success recs (or_none ws) "estimated (fallback)" r))
  /\ (forall v x,
        data !! "rainfall" = Some v -> py_float v = Ok x ->
        exists n p k t h ph ws penalty,
          feature_values data = Ok [n; p; k; t; h; ph; x]
          /\ check_realistic_ranges data = Ok (ws, penalty)
          /\ recommend_crop (Some model) (Some sc) mock_rainfall (Some data) =
               match
                 engine_recommendations model sc [n; p; k; t; h; ph; x] penalty
               with
               | Ok recs => Success recs (or_none ws) "sensor" x
               | Raise e => ServerError e
               end
          /\ (engine_answers model sc ->
              exists recs,
                engine_recommendations model sc [n; p; k; t; h; ph; x] penalty =
                  Ok recs
                /\ recommend_crop (Some model) (Some sc) mock_rainfall
                     (Some data) = Success recs (or_none ws) "sensor" x)).
Proof.
  intros Hvalid. split.
  - intros Hnone.
    destruct (get_default_rainfall_ok mock_rainfall) as (r & Hr).
    assert (Hfill : fill_rainfall mock_rainfall data =
              Ok (<["rainfall" := PyFloat r]> data, "estimated (fallback)"))
      by (unfold fill_rainfall; by rewrite Hnone, Hr).
    assert (Hx : float_item (<["rainfall" := PyFloat r]> data) "rainfall" = Ok r)
      by (unfold float_item, getitem; by rewrite lookup_insert_eq).
    destruct (recommend_crop_on_row model sc _ _ _ _ _ Hvalid Hfill Hx)
      as (n & p & k & t & h & ph & ws & penalty & Hfv & Hcheck & Hrun).
    exists r, n, p, k, t, h, ph, ws, penalty.
    split; [ exact Hr | ]. split; [ exact Hfv | ]. split; [ exact Hcheck | ].
    split; [ exact Hrun | ].
    intros Hengine.
    destruct (engine_recommendations_ok _ _ [n; p; k; t; h; ph; r] penalty
                Hengine) as [recs Hrecs].
    exists recs. split; [ exact Hrecs | ]. by rewrite Hrun, Hrecs.
  - intros v x Hv Hx.
    assert (Hitem : float_item data "rainfall" = Ok x)
      by (unfold float_item, getitem; by rewrite Hv).
    assert (Hfill : fill_rainfall mock_rainfall data = Ok (data, "sensor")).
    { unfold fill_rainfall. rewrite Hv.
      destruct v; done. }
    destruct (recommend_crop_on_row model sc _ _ _ _ _ Hvalid Hfill Hitem)
      as (n & p & k & t & h & ph & ws & penalty & Hfv & Hcheck & Hrun).
    exists n, p, k, t, h, ph, ws, penalty.
    split; [ exact Hfv | ]. split; [ exact Hcheck | ].
    split; [ exact Hrun | ].
    intros Hengine.
    destruct (engine_recommendations_ok _ _ [n; p; k; t; h; ph; x] penalty
                Hengine) as [recs Hrecs].
    exists recs. split; [ exact Hrecs | ]. by rewrite Hrun, Hrecs.
Qed.

Lemma float_item_insert_ne data field key v :
  field <> key -> float_item (<[key := v]> data) field = float_item data field.
Proof.
  intros Hne. unfold float_item, getitem. by rewrite lookup_insert_ne.
Qed.

Lemma feature_values_without_moisture data m :
  feature_values (<["moisture" := m]> data) = feature_values data.
Proof.
  unfold feature_values. by rewrite !float_item_insert_ne.
Qed.

(** C8: the row built from a reading whose seven model features convert is
    those seven floats in the order N, P, K, temperature, humidity, ph,
    rainfall, the order of [FEATURE_ORDER]; the moisture field has no part
    in it.  When the reading is a validated body with its rainfall filled
    in, moisture was validated with the rest, and this row is what the
    handler hands to the scaler, whose result it hands to the classifier:
    the answer is the exception of either (a 500), or the success made of
    the probabilities that came back. *)
Theorem feature_vector_order (data : gmap string pyval)
    (n p k t h ph r : float) :
  float_item data "N" = Ok n ->
  float_item data "P" = Ok p ->
  float_item data "K" = Ok k ->
  float_item data "temperature" = Ok t ->
  float_item data "humidity" = Ok h ->
  float_item data "ph" = Ok ph ->
  float_item data "rainfall" = Ok r ->
  feature_values data = Ok [n; p; k; t; h; ph; r]
  /\ map (float_item data) FEATURE_ORDER = map Ok [n; p; k; t; h; ph; r]
  /\ (forall m, feature_values (<["moisture" := m]> data) =
                Ok [n; p; k; t; h; ph; r])
  /\ (forall model sc mock_rainfall body source,
        validate_input (Some body) = Ok [] ->
        fill_rainfall mock_rainfall body = Ok (data, source) ->
        valid_field body "moisture"
        /\ exists ws penalty,
             check_realistic_ranges data = Ok (ws, penalty)
             /\ recommend_crop (Some model) (Some sc) mock_rainfall (Some body) =
                  match transform sc [n; p; k; t; h; ph; r] with
                  | Raise e => ServerError e
                  | Ok scaled_features =>
                      match predict_proba model scaled_features with
                      | Raise e => ServerError e
                      | Ok probabilities =>
                          match
                            build_recommendations probabilities
                              (classes_ model) penalty
                          with
                          | Raise e => ServerError e
                          | Ok recs => Success recs (or_none ws) source r
                          end
                      end
                  end).
Proof.
  intros Hn Hp Hk Ht Hh Hph Hr.
  pose proof (feature_values_run _ _ _ _ _ _ _ _ Hn Hp Hk Ht Hh Hph Hr) as Hfv.
  split; [ exact Hfv | ].
  split; [ cbn [map FEATURE_ORDER]; by rewrite Hn, Hp, Hk, Ht, Hh, Hph, Hr | ].
  split; [ intros m; by rewrite feature_values_without_moisture | ].
  intros model sc mock_rainfall body source Hvalid Hfill.
  split.
  { pose proof (validated_fields _ Hvalid) as Hall.
    rewrite Forall_forall in Hall. apply Hall.
    unfold REQUIRED_FIELDS. repeat constructor. }
  destruct (recommend_crop_on_row model sc _ _ _ _ _ Hvalid Hfill Hr)
    as (n' & p' & k' & t' & h' & ph' & ws & penalty & Hfv' & Hcheck & Hrun).
  assert (Hsame : [n'; p'; k'; t'; h'; ph'; r] = [n; p; k; t; h; ph; r])
    by congruence.
  rewrite Hsame in Hrun.
  exists ws, penalty. split; [ exact Hcheck | ].
  rewrite Hrun. unfold engine_recommendations.
  destruct (transform sc [n; p; k; t; h; ph; r]) as [scaled|e]; cbn [bind];
    [ | reflexivity ].
  by destruct (predict_proba model scaled) as [probabilities|e]; cbn [bind].
Qed.

Lemma check_field_raise data st field low high label v e :
  data !! field = Some v -> v <> PyNone -> py_float v = Raise e ->
  check_field data st (field, (low, high, label)) = Raise e.
Proof.
  intros Hv Hnone He. unfold check_field. destruct st as [ws tp].
  rewrite Hv, (not_none_match v Hnone). by rewrite He.
Qed.

(** C10: a request whose required fields pass validation and whose
    rainfall value is present, not null and rejected by [float] makes
    [check_realistic_ranges] raise, and the handler answers 500 with that
    exception: not 400. *)
Theorem unconvertible_rainfall_500 (model : classifier) (sc : scaler)
    (mock_rainfall : result float) (data : gmap string pyval)
    (v : pyval) (e : pyexn) :
  validate_input (Some data) = Ok [] ->
  data !! "rainfall" = Some v ->
  v <> PyNone ->
  py_float v = Raise e ->
  check_realistic_ranges data = Raise e
  /\ recommend_crop (Some model) (Some sc) mock_rainfall (Some data) =
       ServerError e
  /\ status_code
       (recommend_crop (Some model) (Some sc) mock_rainfall (Some data)) = 500%Z.
Proof.
  intros Hvalid Hv Hnone He.
  pose proof (validated_fields _ Hvalid) as Hall.
  rewrite Forall_forall in Hall.
  assert (Hcheck : check_realistic_ranges data = Raise e).
  { unfold check_realistic_ranges, REALISTIC_RANGES.
    change (for_each (check_field data) ([], 0%float) ?l) with
      (for_each (check_field data) ([], 0%float)
         (take 6 l ++ drop 6 l)).
    rewrite for_each_app. cbn [take drop firstn skipn].
    rewrite check_loop.
    - cbn [bind for_each].
      by rewrite (check_field_raise _ _ _ _ _ _ _ _ Hv Hnone He).
    - cbn [forallb fst].
      rewrite !valid_convertible; [ reflexivity | .. ];
        apply Hall; unfold REQUIRED_FIELDS; repeat constructor. }
  split; [ exact Hcheck | ].
  assert (Hrun : recommend_crop (Some model) (Some sc) mock_rainfall
                   (Some data) = ServerError e).
  { rewrite (recommend_crop_validated _ _ _ _ Hvalid).
    unfold recommend_validated, fill_rainfall. rewrite Hv.
    replace (is_none (Some v)) with false by (by destruct v).
    cbn [bind]. by rewrite Hcheck. }
  split; [ exact Hrun | by rewrite Hrun ].
Qed.

(** *** Warnings *)

Lemma bound_in_range field low high label value :
  (field, (low, high, label)) ∈ REALISTIC_RANGES ->
  (value =? float_of_Z low)%float = true \/
  (value =? float_of_Z high)%float = true ->
  out_of_range low high value = false.
Proof.
  intros Hin Heq. unfold REALISTIC_RANGES in Hin. unfold out_of_range.
  repeat (apply elem_of_cons in Hin as [Hin | Hin];
          [ injection Hin as -> -> -> -> | ]);
    [ .. | by apply elem_of_nil in Hin ].
  all: destruct Heq as [Heq | Heq];
    destruct (eqb_not_ltb _ _ Heq) as [Hlt Hgt];
    rewrite ?Hlt, ?Hgt, ?orb_false_r; cbn [orb];
    rewrite ltb_spec; rewrite FloatAxioms.eqb_spec in Heq; eval_bounds;
    unfold SFltb; unfold SFeqb in Heq;
    destruct (Prim2SF value) as [[]|[]| |[] m e];
    cbn [SFcompare] in *; congruence.
Qed.

Lemma violates_present data field low high label v value :
  data !! field = Some v -> py_float v = Ok value ->
  violates data (field, (low, high, label)) = out_of_range low high value.
Proof.
  intros Hv Hx. unfold violates. rewrite Hv.
  assert (Hnone : v <> PyNone) by (intros ->; discriminate).
  rewrite (not_none_match v Hnone). by rewrite Hx.
Qed.

Lemma recommend_crop_success_inv crop_model feature_scaler mock_rainfall
    data recs w source x :
  recommend_crop crop_model feature_scaler mock_rainfall data =
    Success recs w source x ->
  exists d d' ws pen,
    data = Some d
    /\ fill_rainfall mock_rainfall d = Ok (d', source)
    /\ check_realistic_ranges d' = Ok (ws, pen)
    /\ w = or_none ws.
Proof.
  unfold recommend_crop, recommend_crop_try.
  destruct crop_model as [model|], feature_scaler as [sc|]; try discriminate.
  destruct (validate_input data) as [[|err errs]|e]; cbn [bind];
    try discriminate.
  destruct data as [d|]; [ | discriminate ].
  unfold recommend_validated.
  destruct (fill_rainfall mock_rainfall d) as [[d' src]|e] eqn:Hfill;
    cbn [bind]; [ | discriminate ].
  destruct (check_realistic_ranges d') as [[ws pen]|e] eqn:Hcheck;
    cbn [bind]; [ | discriminate ].
  destruct (feature_values d'); cbn [bind]; [ | discriminate ].
  destruct (transform sc _); cbn [bind]; [ | discriminate ].
  destruct (predict_proba model _); cbn [bind]; [ | discriminate ].
  destruct (build_recommendations _ _ _); cbn [bind]; [ | discriminate ].
  destruct (float_item d' "rainfall"); cbn [bind]; [ | discriminate ].
  intros [= <- <- <- <-]. by exists d, d', ws, pen.
Qed.

(** C9, as the code has it: on a numeric dictionary (every ranged field
    absent, null, or accepted by [float]) the warnings are one message per
    violating ranged field, in table order, and nothing else; a present value
    violates exactly when it is strictly outside its range, so a value equal
    to a bound does not; the message names the label, the value and the
    bound, minimum when the value is below it and maximum otherwise; and a
    successful answer carries [None], never an empty list, when there is no
    warning. *)
Theorem warnings_reported (data : gmap string pyval) :
  numeric data = true ->
  (exists pen,
     check_realistic_ranges data =
       Ok (map (warning_text data)
             (List.filter (violates data) REALISTIC_RANGES), pen))
  /\ (forall field low high label v value,
        (field, (low, high, label)) ∈ REALISTIC_RANGES ->
        data !! field = Some v -> py_float v = Ok value ->
        violates data (field, (low, high, label)) =
          ((value <? float_of_Z low)%float || (float_of_Z high <? value)%float)
        /\ ((value <? float_of_Z low)%float = true ->
             warning_text data (field, (low, high, label)) =
               "Input " +:+ label +:+ " (" +:+ repr (PyFloat value)
                 +:+ ") is below the expected minimum (" +:+ pretty low
                 +:+ ").")
        /\ ((value <? float_of_Z low)%float = false ->
             warning_text data (field, (low, high, label)) =
               "Input " +:+ label +:+ " (" +:+ repr (PyFloat value)
                 +:+ ") is above the expected maximum (" +:+ pretty high
                 +:+ ").")
        /\ ((value =? float_of_Z low)%float = true \/
             (value =? float_of_Z high)%float = true ->
             violates data (field, (low, high, label)) = false))
  /\ (forall crop_model feature_scaler mock_rainfall request recs w source x,
        recommend_crop crop_model feature_scaler mock_rainfall request =
          Success recs w source x ->
        w <> Some []
        /\ exists filled ws pen,
             check_realistic_ranges filled = Ok (ws, pen)
             /\ w = or_none ws
             /\ (ws = [] -> w = None)).
Proof.
  intros Hnum. split; [ eexists; by apply check_realistic_ranges_numeric | ].
  split.
  - intros field low high label v value Hin Hv Hx.
    rewrite (violates_present _ _ _ _ _ _ _ Hv Hx).
    split; [ reflexivity | ].
    unfold warning_text, below_warning, above_warning. rewrite Hv, Hx.
    split; [ by intros -> | ].
    split; [ by intros -> | ].
    by apply bound_in_range with field label.
  - intros crop_model feature_scaler mock_rainfall request recs w source x Hrun.
    apply recommend_crop_success_inv in Hrun
      as (d & d' & ws & pen & _ & _ & Hcheck & ->).
    split; [ by destruct ws | ].
    exists d', ws, pen. split; [ exact Hcheck | ].
    split; [ reflexivity | by intros -> ].
Qed.

(** *** More on the order of floats *)

Lemma SFleb_trans (a b c : spec_float) :
  SFleb a b = true -> SFleb b c = true -> SFleb a c = true.
Proof.
  unfold SFleb.
  destruct a as [sa|sa| |sa ma ea], b as [sb|sb| |sb mb eb],
    c as [sc'|sc'| |sc' mc ec]; cbn [SFcompare];
    try destruct sa; try destruct sb; try destruct sc';
    try (intros; congruence); try (intros; reflexivity).
  all: change (Pos.compare_cont Eq) with Pos.compare.
  all: destruct (Z.compare_spec ea eb); destruct (Z.compare_spec eb ec);
    destruct (Z.compare_spec ea ec); try lia; try (intros; congruence);
    subst; cbn [CompOpp].
  all: destruct (Pos.compare_spec ma mb); destruct (Pos.compare_spec mb mc);
    destruct (Pos.compare_spec ma mc); try lia; cbn [CompOpp];
    intros; congruence.
Qed.

Lemma leb_trans (a b c : float) :
  (a <=? b)%float = true -> (b <=? c)%float = true -> (a <=? c)%float = true.
Proof. rewrite !leb_spec. apply SFleb_trans. Qed.

Lemma leb_not_ltb (a b : float) :
  (a <=? b)%float = true -> (b <? a)%float = false.
Proof.
  rewrite leb_spec, ltb_spec. unfold SFleb, SFltb.
  rewrite (SFcompare_antisym (Prim2SF a) (Prim2SF b)).
  destruct (SFcompare (Prim2SF a) (Prim2SF b)) as [[]|]; cbn; congruence.
Qed.

(** *** Which answer the handler gives *)

Lemma recommend_validated_shape model sc mock_rainfall data r :
  recommend_validated model sc mock_rainfall data = Ok r ->
  exists recs w source x, r = Success recs w source x.
Proof.
  unfold recommend_validated.
  destruct (fill_rainfall mock_rainfall data) as [[d' src]|e]; cbn [bind];
    [ | discriminate ].
  destruct (check_realistic_ranges d') as [[ws pen]|e]; cbn [bind];
    [ | discriminate ].
  destruct (feature_values d'); cbn [bind]; [ | discriminate ].
  destruct (transform sc _); cbn [bind]; [ | discriminate ].
  destruct (predict_proba model _); cbn [bind]; [ | discriminate ].
  destruct (build_recommendations _ _ _); cbn [bind]; [ | discriminate ].
  destruct (float_item d' "rainfall"); cbn [bind]; [ | discriminate ].
  intros [= <-]. eauto.
Qed.

Lemma loaded_never_503 model sc mock_rainfall data :
  recommend_crop (Some model) (Some sc) mock_rainfall data
  <> ServiceUnavailable.
Proof.
  unfold recommend_crop, recommend_crop_try.
  destruct (validate_input data) as [[|err errs]|e]; cbn [bind];
    try discriminate.
  destruct data as [d|]; [ | discriminate ].
  destruct (recommend_validated model sc mock_rainfall d) as [r|e] eqn:Hrun;
    [ | discriminate ].
  apply recommend_validated_shape in Hrun as (recs & w & src & x & ->).
  discriminate.
Qed.

(** After startup the two artifacts are loaded together or not at all, so
    the health check, which looks at the classifier alone, says "loaded"
    exactly when both files were there, and exactly then no request is
    answered 503; otherwise every request is, whatever its body. *)
Theorem health_agrees_with_guard (model_file : option classifier)
    (scaler_file : option scaler) (mock_rainfall : result float)
    (data : option (gmap string pyval)) :
  let crop_model := (load_artifacts model_file scaler_file).1 in
  let feature_scaler := (load_artifacts model_file scaler_file).2 in
  (crop_model = None <-> feature_scaler = None)
  /\ (model_status (health_check crop_model) = "loaded" <->
      is_Some model_file /\ is_Some scaler_file)
  /\ (model_status (health_check crop_model) = "loaded" <->
      recommend_crop crop_model feature_scaler mock_rainfall data
      <> ServiceUnavailable)
  /\ (model_status (health_check crop_model) = "not loaded" <->
      recommend_crop crop_model feature_scaler mock_rainfall data
      = ServiceUnavailable).
Proof.
  destruct model_file as [model|], scaler_file as [sc|]; cbn.
  - pose proof (loaded_never_503 model sc mock_rainfall data) as Hne.
    repeat split; try done; eauto.
  - repeat split; try done; intros [_ [? [=]]].
  - repeat split; try done; intros [[? [=]] _].
  - repeat split; try done; intros [[? [=]] _].
Qed.

(** The handler answers 400 exactly when the artifacts are loaded and
    [validate_input] returns a list that is not empty, and then the answer
    carries that whole list; an absent body is one such case. *)
Theorem bad_request_iff (crop_model : option classifier)
    (feature_scaler : option scaler) (mock_rainfall : result float)
    (data : option (gmap string pyval)) (errors : list string) :
  (recommend_crop crop_model feature_scaler mock_rainfall data
     = BadRequest errors
   <-> is_Some crop_model /\ is_Some feature_scaler
       /\ validate_input data = Ok errors /\ errors <> [])
  /\ (is_Some crop_model -> is_Some feature_scaler ->
      recommend_crop crop_model feature_scaler mock_rainfall None
        = BadRequest ["Request body is empty or not valid JSON."]).
Proof.
  split.
  - unfold recommend_crop, recommend_crop_try.
    destruct crop_model as [model|], feature_scaler as [sc|];
      [ | split; [ discriminate | by intros (_ & [? [=]] & _) ]
        | split; [ discriminate | by intros ([? [=]] & _) ]
        | split; [ discriminate | by intros ([? [=]] & _) ] ].
    destruct (validate_input data) as [[|err errs]|e]; cbn [bind].
    + destruct data as [d|].
      * destruct (recommend_validated model sc mock_rainfall d) as [r|e]
          eqn:Hrun.
        -- apply recommend_validated_shape in Hrun as (recs & w & src & x & ->).
           split; [ discriminate | intros (_ & _ & [= <-] & Hne); done ].
        -- split; [ discriminate | intros (_ & _ & [= <-] & Hne); done ].
      * split; [ discriminate | intros (_ & _ & [= <-] & Hne); done ].
    + split.
      * intros [= <-]. repeat split; eauto.
      * by intros (_ & _ & [= <-] & _).
    + split; [ discriminate | intros (_ & _ & [=] & _) ].
  - intros [model ->] [sc ->]. reflexivity.
Qed.

Lemma build_recommendations_inv probabilities class_labels penalty recs :
  build_recommendations probabilities class_labels penalty = Ok recs ->
  recs = map (recommendation_of probabilities class_labels penalty)
           (top_indices probabilities)
  /\ Forall (fun i => i < length probabilities /\ i < length class_labels)
       (top_indices probabilities).
Proof.
  intros Hrun. unfold build_recommendations in Hrun.
  pose proof (append_loop_inv _ _ _ _ _ _ Hrun) as Hall.
  rewrite append_loop_ok in Hrun by exact Hall.
  injection Hrun as <-. by split.
Qed.

Lemma fill_rainfall_cases mock_rainfall data data' source :
  fill_rainfall mock_rainfall data = Ok (data', source) ->
  (is_none (data !! "rainfall") = true
   /\ source = "estimated (fallback)"
   /\ exists r, get_default_rainfall mock_rainfall = Ok r
                /\ data' = <["rainfall" := PyFloat r]> data)
  \/ (is_none (data !! "rainfall") = false
      /\ source = "sensor" /\ data' = data).
Proof.
  unfold fill_rainfall.
  destruct (is_none (data !! "rainfall")).
  - destruct (get_default_rainfall mock_rainfall) as [r|e]; cbn [bind];
      [ | discriminate ].
    intros [= <- <-]. left. eauto.
  - intros [= <- <-]. by right.
Qed.

(** What a 200 answer always is: the artifacts were loaded and the body
    passed validation; there are at most three recommendations, each for a
    label of the classifier; and the metadata tell the truth about the
    rainfall: "estimated (fallback)" with the value of
    [get_default_rainfall] when the body had none, "sensor" with the float of
    the body's value otherwise. *)
Theorem success_shape (crop_model : option classifier)
    (feature_scaler : option scaler) (mock_rainfall : result float)
    (data : option (gmap string pyval)) (recs : list recommendation)
    (w : option (list string)) (source : string) (x : float) :
  recommend_crop crop_model feature_scaler mock_rainfall data
    = Success recs w source x ->
  exists model sc d,
    crop_model = Some model /\ feature_scaler = Some sc /\ data = Some d
    /\ validate_input (Some d) = Ok []
    /\ length recs <= 3
    /\ Forall (fun r => crop r ∈ classes_ model) recs
    /\ ((is_none (d !! "rainfall") = true
         /\ source = "estimated (fallback)"
         /\ get_default_rainfall mock_rainfall = Ok x)
        \/ (is_none (d !! "rainfall") = false
            /\ source = "sensor"
            /\ float_item d "rainfall" = Ok x)).
Proof.
  unfold recommend_crop, recommend_crop_try.
  destruct crop_model as [model|], feature_scaler as [sc|]; try discriminate.
  destruct (validate_input data) as [[|err errs]|e] eqn:Hvalid; cbn [bind];
    try discriminate.
  destruct data as [d|]; [ | discriminate ].
  unfold recommend_validated.
  destruct (fill_rainfall mock_rainfall d) as [[d' src]|e] eqn:Hfill;
    cbn [bind]; [ | discriminate ].
  destruct (check_realistic_ranges d') as [[ws pen]|e]; cbn [bind];
    [ | discriminate ].
  destruct (feature_values d'); cbn [bind]; [ | discriminate ].
  destruct (transform sc _); cbn [bind]; [ | discriminate ].
  destruct (predict_proba model _) as [probs|e]; cbn [bind];
    [ | discriminate ].
  destruct (build_recommendations probs (classes_ model) pen) as [rs|e]
    eqn:Hbuild; cbn [bind]; [ | discriminate ].
  destruct (float_item d' "rainfall") as [rv|e] eqn:Hrain; cbn [bind];
    [ | discriminate ].
  intros [= <- <- <- <-].
  apply build_recommendations_inv in Hbuild as [-> Hall].
  exists model, sc, d.
  split; [ reflexivity | ]. split; [ reflexivity | ].
  split; [ reflexivity | ]. split; [ exact Hvalid | ].
  split; [ | split ].
  - rewrite length_map. unfold top_indices. rewrite length_take. lia.
  - apply Forall_fmap. eapply Forall_impl; [ exact Hall | ].
    intros idx [_ Hl]. cbn.
    destruct (lookup_lt_is_Some_2 _ _ Hl) as [label Hlabel].
    rewrite (nth_lookup_Some _ _ _ _ Hlabel).
    apply list_elem_of_lookup. eauto.
  - apply fill_rainfall_cases in Hfill
      as [(Hnone & -> & r & Hr & ->) | (Hnone & -> & ->)].
    + left. repeat split; [ done | ].
      unfold float_item, getitem in Hrain.
      rewrite lookup_insert_eq in Hrain. cbn in Hrain. congruence.
    + by right.
Qed.

(** *** Bounds of the penalty *)

Lemma check_field_ok data st entry st' :
  check_field data st entry = Ok st' -> convertible data entry.1 = true.
Proof.
  destruct entry as [field [[low high] label]], st as [ws tp].
  unfold check_field, convertible; cbn [fst].
  destruct (data !! field) as [v|]; [ | done ].
  destruct (none_or_not v) as [-> | Hv]; [ done | ].
  rewrite !(not_none_match v Hv).
  by destruct (py_float v).
Qed.

Lemma check_loop_ok data es st st' :
  for_each (check_field data) st es = Ok st' ->
  forallb (fun entry => convertible data entry.1) es = true.
Proof.
  revert st. induction es as [|entry es IH]; intros st Hrun; [ done | ].
  cbn [for_each] in Hrun. apply bind_ok in Hrun as (mid & Hstep & Hrun).
  cbn [forallb]. apply andb_true_intro.
  split; [ by eapply check_field_ok | by eapply IH ].
Qed.

Lemma check_realistic_ranges_ok data ws pen :
  check_realistic_ranges data = Ok (ws, pen) -> numeric data = true.
Proof.
  unfold check_realistic_ranges. intros Hrun.
  apply bind_ok in Hrun as (st & Hloop & _). by eapply check_loop_ok.
Qed.

Lemma capped_penalty_facts (flags : list bool) :
  length flags = 8 ->
  let c := count_true flags in
  let p := py_min (0.1 * float_of_Z (Z.of_nat c))%float 0.5%float in
  (0 <=? p)%float = true
  /\ (p <=? 0.5)%float = true
  /\ ((p =? 0)%float = true <-> c = 0)
  /\ (1 <= c -> (0.1 <=? p)%float = true)
  /\ In p [0; 0.1; 0.2; 0.1 + 0.1 + 0.1; 0.4; 0.5]%float.
Proof.
  intros Hlen.
  do 8 (destruct flags as [|? flags]; [ discriminate Hlen | ]).
  destruct flags; [ clear Hlen | discriminate Hlen ].
  destruct b, b0, b1, b2, b3, b4, b5, b6; vm_compute;
    (split; [ reflexivity | ]); (split; [ reflexivity | ]);
    (split; [ split; intros H; (reflexivity || discriminate H) | ]);
    (split; [ intros H; first [ reflexivity | inversion H ] | ]);
    repeat (first [ left; reflexivity | right ]).
Qed.

(** Whenever [check_realistic_ranges] returns, the penalty is one of 0, 0.1,
    0.2, 0.1+0.1+0.1, 0.4 and 0.5, so between 0.0 and 0.50 as its docstring
    says; it is 0 exactly when there is no warning, and at least 0.1 when
    there is one; and there are at most eight warnings. *)
Theorem penalty_bounds (data : gmap string pyval) (ws : list string)
    (pen : float) :
  check_realistic_ranges data = Ok (ws, pen) ->
  (0 <=? pen)%float = true
  /\ (pen <=? 0.5)%float = true
  /\ In pen [0; 0.1; 0.2; 0.1 + 0.1 + 0.1; 0.4; 0.5]%float
  /\ length ws <= 8
  /\ (ws = [] <-> (pen =? 0)%float = true)
  /\ (ws <> [] -> (0.1 <=? pen)%float = true).
Proof.
  intros Hrun. pose proof (check_realistic_ranges_ok _ _ _ Hrun) as Hnum.
  rewrite (check_realistic_ranges_numeric _ Hnum) in Hrun.
  assert (Hws : ws = map (warning_text data)
                       (List.filter (violates data) REALISTIC_RANGES))
    by congruence.
  assert (Hpen : pen = py_min
                         (0.1 * float_of_Z (Z.of_nat (violation_count data)))%float
                         0.5%float)
    by congruence.
  clear Hrun. subst ws pen.
  unfold violation_count. rewrite !length_map, !count_true_filter.
  set (flags := map (violates data) REALISTIC_RANGES).
  destruct (capped_penalty_facts flags eq_refl)
    as (Hlo & Hhi & Hzero & Hone & Hin).
  assert (Hcount : count_true flags <= 8)
    by (unfold count_true; apply (List.filter_length_le _ flags)).
  cbv zeta in *.
  split; [ exact Hlo | ]. split; [ exact Hhi | ]. split; [ exact Hin | ].
  split; [ exact Hcount | ].
  assert (Hnil : List.filter (violates data) REALISTIC_RANGES = [] <->
                 count_true flags = 0).
  { unfold flags. rewrite <- count_true_filter. split; [ by intros -> | ].
    apply nil_length_inv. }
  split.
  - rewrite Hzero, <- Hnil. split; [ by intros ->%fmap_nil_inv | by intros -> ].
  - intros Hne. apply Hone.
    destruct (Nat.eq_dec (count_true flags) 0) as [Hc | Hc]; [ | lia ].
    apply Hnil in Hc. by rewrite Hc in Hne.
Qed.

(** *** What the answer depends on *)

Lemma for_each_ext {S X : Type} (f g : S -> X -> result S) (s : S)
    (l : list X) :
  (forall s' x, x ∈ l -> f s' x = g s' x) ->
  for_each f s l = for_each g s l.
Proof.
  revert s. induction l as [|x l IH]; intros s Hext; [ reflexivity | ].
  cbn [for_each]. rewrite (Hext s x) by constructor.
  destruct (g s x) as [s'|e]; cbn [bind]; [ | reflexivity ].
  apply IH. intros s'' y Hy. apply Hext. by constructor.
Qed.

Lemma py_float_ok_not_none v x : py_float v = Ok x -> v <> PyNone.
Proof. intros Hx ->. discriminate. Qed.

Lemma same_at_none d1 d2 key :
  same_at d1 d2 key -> is_none (d1 !! key) = is_none (d2 !! key).
Proof.
  intros [-> | (v1 & v2 & x & -> & -> & H1 & H2)]; [ reflexivity | ].
  apply py_float_ok_not_none in H1, H2. by destruct v1, v2.
Qed.

Lemma same_at_validate d1 d2 errors key :
  same_at d1 d2 key ->
  validate_field d1 errors key = validate_field d2 errors key.
Proof.
  unfold validate_field.
  intros [-> | (v1 & v2 & x & -> & -> & H1 & H2)]; [ reflexivity | ].
  rewrite !(not_none_match _ (py_float_ok_not_none _ _ H1)).
  rewrite !(not_none_match _ (py_float_ok_not_none _ _ H2)).
  by rewrite H1, H2.
Qed.

Lemma same_at_check d1 d2 st key range :
  same_at d1 d2 key ->
  check_field d1 st (key, range) = check_field d2 st (key, range).
Proof.
  unfold check_field. destruct st as [ws tp], range as [[low high] label].
  intros [-> | (v1 & v2 & x & -> & -> & H1 & H2)]; [ reflexivity | ].
  rewrite !(not_none_match _ (py_float_ok_not_none _ _ H1)).
  rewrite !(not_none_match _ (py_float_ok_not_none _ _ H2)).
  by rewrite H1, H2.
Qed.

Lemma same_at_item d1 d2 key :
  same_at d1 d2 key -> float_item d1 key = float_item d2 key.
Proof.
  unfold float_item, getitem.
  intros [-> | (v1 & v2 & x & -> & -> & H1 & H2)]; [ reflexivity | ].
  cbn [bind]. by rewrite H1, H2.
Qed.

Lemma same_reading_validate d1 d2 :
  same_reading d1 d2 -> validate_input (Some d1) = validate_input (Some d2).
Proof.
  intros Hsame. unfold validate_input. apply for_each_ext.
  intros errors field Hfield. apply same_at_validate, Hsame.
  unfold REQUIRED_FIELDS in Hfield. unfold KNOWN_FIELDS, REALISTIC_RANGES.
  cbn [map fst].
  repeat (apply elem_of_cons in Hfield as [-> | Hfield];
          [ repeat constructor | ]).
  by apply elem_of_nil in Hfield.
Qed.

Lemma same_reading_check d1 d2 :
  same_reading d1 d2 ->
  check_realistic_ranges d1 = check_realistic_ranges d2.
Proof.
  intros Hsame. unfold check_realistic_ranges. f_equal.
  apply for_each_ext. intros st [key range] Hentry.
  apply same_at_check, Hsame. unfold KNOWN_FIELDS.
  apply list_elem_of_fmap. by exists (key, range).
Qed.

Lemma same_reading_features d1 d2 :
  same_reading d1 d2 -> feature_values d1 = feature_values d2.
Proof.
  intros Hsame. unfold feature_values.
  rewrite !(same_at_item d1 d2); [ reflexivity | .. ];
    apply Hsame; unfold KNOWN_FIELDS, REALISTIC_RANGES; cbn [map fst];
    repeat constructor.
Qed.

Lemma same_reading_insert d1 d2 key v :
  same_reading d1 d2 -> same_reading (<[key := v]> d1) (<[key := v]> d2).
Proof.
  intros Hsame k Hk. destruct (decide (k = key)) as [-> | Hne].
  - left. by rewrite !lookup_insert_eq.
  - destruct (Hsame k Hk) as [Heq | (v1 & v2 & x & H1 & H2 & Hx1 & Hx2)].
    + left. by rewrite !lookup_insert_ne.
    + right. exists v1, v2, x. by rewrite !lookup_insert_ne.
Qed.

Lemma rainfall_known : "rainfall" ∈ KNOWN_FIELDS.
Proof.
  unfold KNOWN_FIELDS, REALISTIC_RANGES. cbn [map fst]. repeat constructor.
Qed.

Lemma same_reading_validated model sc mock_rainfall d1 d2 :
  same_reading d1 d2 ->
  recommend_validated model sc mock_rainfall d1 =
  recommend_validated model sc mock_rainfall d2.
Proof.
  intros Hsame. unfold recommend_validated, fill_rainfall.
  rewrite (same_at_none d1 d2 "rainfall") by apply Hsame, rainfall_known.
  destruct (is_none (d2 !! "rainfall")).
  - destruct (get_default_rainfall mock_rainfall) as [r|e]; cbn [bind];
      [ | reflexivity ].
    pose proof (same_reading_insert _ _ "rainfall" (PyFloat r) Hsame) as Hfilled.
    rewrite (same_reading_check _ _ Hfilled),
      (same_reading_features _ _ Hfilled),
      (same_at_item _ _ "rainfall" (Hfilled _ rainfall_known)).
    reflexivity.
  - cbn [bind].
    rewrite (same_reading_check _ _ Hsame), (same_reading_features _ _ Hsame),
      (same_at_item _ _ "rainfall" (Hsame _ rainfall_known)).
    reflexivity.
Qed.

Lemma same_reading_response crop_model feature_scaler mock_rainfall d1 d2 :
  same_reading d1 d2 ->
  recommend_crop crop_model feature_scaler mock_rainfall (Some d1) =
  recommend_crop crop_model feature_scaler mock_rainfall (Some d2).
Proof.
  intros Hsame. unfold recommend_crop, recommend_crop_try.
  destruct crop_model as [model|], feature_scaler as [sc|]; try reflexivity.
  rewrite (same_reading_validate _ _ Hsame).
  destruct (validate_input (Some d2)) as [[|err errs]|e]; cbn [bind];
    try reflexivity.
  by rewrite (same_reading_validated _ _ _ _ _ Hsame).
Qed.

(** The handler reads the eight ranged fields and nothing else: a key that
    is none of them can be added, changed or removed without changing the
    answer. *)
Theorem unknown_field_ignored (crop_model : option classifier)
    (feature_scaler : option scaler) (mock_rainfall : result float)
    (data : gmap string pyval) (key : string) (v : pyval) :
  key ∉ KNOWN_FIELDS ->
  recommend_crop crop_model feature_scaler mock_rainfall
    (Some (<[key := v]> data))
  = recommend_crop crop_model feature_scaler mock_rainfall (Some data)
  /\ recommend_crop crop_model feature_scaler mock_rainfall
       (Some (delete key data))
     = recommend_crop crop_model feature_scaler mock_rainfall (Some data).
Proof.
  intros Hkey. split; apply same_reading_response; intros k Hk; left.
  - apply lookup_insert_ne. by intros ->.
  - apply lookup_delete_ne. by intros ->.
Qed.

(** The handler sees a field only through [float]: a value that [float]
    accepts (a number, a boolean, a numeric string) can be replaced by its
    float without changing the answer. *)
Theorem field_read_through_float (crop_model : option classifier)
    (feature_scaler : option scaler) (mock_rainfall : result float)
    (data : gmap string pyval) (key : string) (v : pyval) (x : float) :
  py_float v = Ok x ->
  recommend_crop crop_model feature_scaler mock_rainfall
    (Some (<[key := v]> data))
  = recommend_crop crop_model feature_scaler mock_rainfall
      (Some (<[key := PyFloat x]> data)).
Proof.
  intros Hx. apply same_reading_response. intros k Hk.
  destruct (decide (k = key)) as [-> | Hne].
  - right. exists v, (PyFloat x), x. by rewrite !lookup_insert_eq.
  - left. by rewrite !lookup_insert_ne.
Qed.

(** *** The estimate of the rainfall *)

Lemma validate_input_insert data key v :
  key ∉ REQUIRED_FIELDS ->
  validate_input (Some (<[key := v]> data)) = validate_input (Some data).
Proof.
  intros Hkey. unfold validate_input. apply for_each_ext.
  intros errors field Hfield. unfold validate_field.
  rewrite lookup_insert_ne; [ reflexivity | by intros -> ].
Qed.

Lemma rainfall_not_required : "rainfall" ∉ REQUIRED_FIELDS.
Proof.
  unfold REQUIRED_FIELDS. intros Hin.
  repeat (apply elem_of_cons in Hin as [Hin | Hin]; [ discriminate | ]).
  by apply elem_of_nil in Hin.
Qed.

Lemma estimate_in_range mock_rainfall r :
  mock_in_range mock_rainfall ->
  get_default_rainfall mock_rainfall = Ok r ->
  (0 <=? r)%float = true /\ (r <=? 500)%float = true.
Proof.
  unfold get_default_rainfall, fetch_rainfall_from_weather_api, mock_in_range.
  destruct mock_rainfall as [v|e].
  - intros [Hlo Hhi] [= <-]. split.
    + by apply leb_trans with 50%float.
    + by apply leb_trans with 200%float.
  - intros _. rewrite historical_default. intros [= <-]. by split.
Qed.

Lemma check_field_in_range data st field low high label x :
  data !! field = Some (PyFloat x) ->
  (float_of_Z low <=? x)%float = true ->
  (x <=? float_of_Z high)%float = true ->
  check_field data st (field, (low, high, label)) = Ok st.
Proof.
  intros Hv Hlo Hhi. unfold check_field. destruct st as [ws tp].
  rewrite Hv. cbn [py_float bind].
  by rewrite (leb_not_ltb _ _ Hlo), (leb_not_ltb _ _ Hhi).
Qed.

Lemma check_field_none data st field range :
  is_none (data !! field) = true ->
  check_field data st (field, range) = Ok st.
Proof.
  unfold check_field. destruct st as [ws tp], range as [[low high] label].
  by destruct (data !! field) as [[]|].
Qed.

(** When the body has no rainfall, the estimate that replaces it (a lookup
    value between 50 and 200, or else the historical 120) lies between 0 and
    500, so it costs nothing: the warnings and the penalty are those of the
    body's own fields. *)
Theorem estimate_costs_nothing (mock_rainfall : result float)
    (data : gmap string pyval) :
  is_none (data !! "rainfall") = true ->
  mock_in_range mock_rainfall ->
  exists r,
    fill_rainfall mock_rainfall data =
      Ok (<["rainfall" := PyFloat r]> data, "estimated (fallback)")
    /\ (0 <=? r)%float = true /\ (r <=? 500)%float = true
    /\ check_realistic_ranges (<["rainfall" := PyFloat r]> data) =
         check_realistic_ranges data.
Proof.
  intros Hnone Hmock.
  destruct (get_default_rainfall_ok mock_rainfall) as [r Hr].
  destruct (estimate_in_range _ _ Hmock Hr) as [Hlo Hhi].
  exists r. split; [ unfold fill_rainfall; by rewrite Hnone, Hr | ].
  split; [ exact Hlo | ]. split; [ exact Hhi | ].
  unfold check_realistic_ranges. f_equal.
  apply for_each_ext. intros st [field [[low high] label]] Hentry.
  destruct (decide (field = "rainfall")) as [-> | Hne].
  - assert (Hrange : low = 0%Z /\ high = 500%Z).
    { unfold REALISTIC_RANGES in Hentry.
      repeat (apply elem_of_cons in Hentry as [Hentry | Hentry];
              [ by simplify_eq | ]).
      by apply elem_of_nil in Hentry. }
    destruct Hrange as [-> ->].
    rewrite (check_field_none data) by exact Hnone.
    apply (check_field_in_range _ _ _ _ _ _ r);
      [ by rewrite lookup_insert_eq | done | done ].
  - unfold check_field. by rewrite lookup_insert_ne.
Qed.

(** Sending a body again with the estimated rainfall written into it gives
    the same recommendations, warnings and rainfall value; only the source
    now reads "sensor". *)
Theorem estimate_resent_as_sensor (crop_model : option classifier)
    (feature_scaler : option scaler) (mock_rainfall mock' : result float)
    (data : gmap string pyval) (r : float) :
  is_none (data !! "rainfall") = true ->
  get_default_rainfall mock_rainfall = Ok r ->
  recommend_crop crop_model feature_scaler mock'
    (Some (<["rainfall" := PyFloat r]> data))
  = as_sensor
      (recommend_crop crop_model feature_scaler mock_rainfall (Some data)).
Proof.
  intros Hnone Hr. unfold recommend_crop, recommend_crop_try.
  destruct crop_model as [model|], feature_scaler as [sc|]; try reflexivity.
  rewrite (validate_input_insert _ _ _ rainfall_not_required).
  destruct (validate_input (Some data)) as [[|err errs]|e]; cbn [bind];
    try reflexivity.
  unfold recommend_validated, fill_rainfall.
  rewrite Hnone, Hr, lookup_insert_eq. cbn [is_none bind].
  destruct (check_realistic_ranges _) as [[ws pen]|e]; cbn [bind];
    [ | reflexivity ].
  destruct (feature_values _); cbn [bind]; [ | reflexivity ].
  destruct (transform sc _); cbn [bind]; [ | reflexivity ].
  destruct (predict_proba model _); cbn [bind]; [ | reflexivity ].
  destruct (build_recommendations _ _ _); cbn [bind]; [ | reflexivity ].
  destruct (float_item _ _); reflexivity.
Qed.

(** *** Readings inside a crop's profile *)

Lemma filter_none {X : Type} (f : X -> bool) (l : list X) :
  (forall x, In x l -> f x = false) -> List.filter f l = [].
Proof.
  induction l as [|x l IH]; intros Hall; [ reflexivity | ].
  cbn [List.filter]. rewrite (Hall x) by (by left).
  apply IH. intros y Hy. apply Hall. by right.
Qed.

Lemma profiles_inside_ranges :
  forallb (fun entry : string * profile => profile_inside entry.2)
    CROP_PROFILES = true.
Proof. vm_compute. reflexivity. Qed.

Lemma inside_not_violating data field low high label v x lo hi :
  data !! field = Some v -> py_float v = Ok x ->
  (float_of_Z low <=? lo)%float = true -> (lo <=? x)%float = true ->
  (x <=? hi)%float = true -> (hi <=? float_of_Z high)%float = true ->
  convertible data field = true
  /\ violates data (field, (low, high, label)) = false.
Proof.
  intros Hv Hx Hlow Hlo Hhi Hhigh. split.
  - unfold convertible. rewrite Hv.
    rewrite (not_none_match _ (py_float_ok_not_none _ _ Hx)). by rewrite Hx.
  - rewrite (violates_present _ _ _ _ _ _ _ Hv Hx). unfold out_of_range.
    rewrite (leb_not_ltb _ _ (leb_trans _ _ _ Hlow Hlo)).
    by rewrite (leb_not_ltb _ _ (leb_trans _ _ _ Hhi Hhigh)).
Qed.

Lemma within_profile_entry ranges data col key low high label :
  profile_inside ranges = true ->
  within_profile ranges data = true ->
  In (col, key) ROW_KEYS ->
  dict_get REALISTIC_RANGES col = Ok (low, high, label) ->
  convertible data col = true
  /\ violates data (col, (low, high, label)) = false.
Proof.
  intros Hinside Hwithin Hck Hrange.
  unfold profile_inside in Hinside. unfold within_profile in Hwithin.
  rewrite forallb_forall in Hinside, Hwithin.
  specialize (Hinside _ Hck). specialize (Hwithin _ Hck).
  cbn [fst snd] in Hinside, Hwithin. rewrite Hrange in Hinside.
  destruct (dict_get ranges key) as [[lo hi]|e]; [ | discriminate ].
  destruct (data !! col) as [v|] eqn:Hv; [ | discriminate ].
  destruct (py_float v) as [x|e] eqn:Hx; [ | discriminate ].
  apply andb_prop in Hinside as [Hlow Hhigh].
  apply andb_prop in Hwithin as [Hlo Hhi].
  by eapply inside_not_violating.
Qed.

(** A reading whose seven model features lie inside the profile of any crop
    of the training table, and whose moisture is plausible, gets no warning
    and no penalty: the profiles all lie inside the realistic ranges. *)
Theorem profile_reading_unpenalised (crop : string) (ranges : profile)
    (data : gmap string pyval) :
  (crop, ranges) ∈ CROP_PROFILES ->
  within_profile ranges data = true ->
  moisture_plausible data = true ->
  check_realistic_ranges data = Ok ([], 0%float).
Proof.
  intros Hcrop Hwithin Hmoist.
  pose proof profiles_inside_ranges as Htable.
  rewrite forallb_forall in Htable.
  assert (Hinside : profile_inside ranges = true)
    by (apply (Htable (crop, ranges)); by apply list_elem_of_In).
  apply andb_prop in Hmoist as [Hconv Hviol]. apply negb_true_iff in Hviol.
  assert (Hall : forall entry, In entry REALISTIC_RANGES ->
                   convertible data entry.1 = true
                   /\ violates data entry = false).
  { intros entry Hentry. unfold REALISTIC_RANGES in Hentry. cbn [In] in Hentry.
    repeat (destruct Hentry as [<- | Hentry];
            [ first
                [ by split
                | eapply within_profile_entry;
                    [ exact Hinside | exact Hwithin
                    | cbn; eauto 10 | reflexivity ] ]
            | ]).
    destruct Hentry. }
  assert (Hnum : numeric data = true).
  { unfold numeric. apply forallb_forall. intros entry Hentry.
    by apply Hall. }
  rewrite (check_realistic_ranges_numeric _ Hnum).
  assert (Hnone : List.filter (violates data) REALISTIC_RANGES = []).
  { apply filter_none. intros entry Hentry. by apply Hall. }
  unfold violation_count. rewrite Hnone. reflexivity.
Qed.

(** *** What becomes of a validated request *)

Lemma unconvertible_rainfall_raises model sc mock_rainfall data v e :
  validate_input (Some data) = Ok [] ->
  data !! "rainfall" = Some v -> v <> PyNone -> py_float v = Raise e ->
  recommend_validated model sc mock_rainfall data = Raise e.
Proof.
  intros Hvalid Hv Hnone He.
  pose proof (validated_fields _ Hvalid) as Hall.
  rewrite Forall_forall in Hall.
  assert (Hcheck : check_realistic_ranges data = Raise e).
  { unfold check_realistic_ranges, REALISTIC_RANGES.
    change (for_each (check_field data) ([], 0%float) ?l) with
      (for_each (check_field data) ([], 0%float) (take 6 l ++ drop 6 l)).
    rewrite for_each_app. cbn [take drop firstn skipn].
    rewrite check_loop.
    - cbn [bind for_each].
      by rewrite (check_field_raise _ _ _ _ _ _ _ _ Hv Hnone He).
    - cbn [forallb fst].
      rewrite !valid_convertible; [ reflexivity | .. ];
        apply Hall; unfold REQUIRED_FIELDS; repeat constructor. }
  unfold recommend_validated, fill_rainfall. rewrite Hv.
  replace (is_none (Some v)) with false by (by destruct v).
  cbn [bind]. by rewrite Hcheck.
Qed.

(** A request that passes validation, with artifacts that answer, is
    answered 200 unless its rainfall value is present, not null and rejected
    by [float]; then, and only then, the answer is 500, with the exception of
    that conversion. *)
Theorem validated_request_outcome (model : classifier) (sc : scaler)
    (mock_rainfall : result float) (data : gmap string pyval) :
  validate_input (Some data) = Ok [] ->
  engine_answers model sc ->
  match recommend_crop (Some model) (Some sc) mock_rainfall (Some data) with
  | Success _ _ _ _ => convertible data "rainfall" = true
  | ServerError e =>
      exists v, data !! "rainfall" = Some v /\ v <> PyNone
                /\ py_float v = Raise e
  | BadRequest _ | ServiceUnavailable => False
  end.
Proof.
  intros Hvalid Hengine.
  pose proof (validated_fields _ Hvalid) as Hall.
  rewrite (recommend_crop_validated _ _ _ _ Hvalid).
  destruct (data !! "rainfall") as [v|] eqn:Hv.
  - destruct (none_or_not v) as [-> | Hnone].
    + destruct (get_default_rainfall_ok mock_rainfall) as (r & Hr).
      assert (Hfill : fill_rainfall mock_rainfall data =
                Ok (<["rainfall" := PyFloat r]> data, "estimated (fallback)"))
        by (unfold fill_rainfall; by rewrite Hv, Hr).
      assert (Hx : float_item (<["rainfall" := PyFloat r]> data) "rainfall"
                   = Ok r)
        by (unfold float_item, getitem; by rewrite lookup_insert_eq).
      assert (Hall' : Forall (valid_field (<["rainfall" := PyFloat r]> data))
                        REQUIRED_FIELDS).
      { rewrite Forall_forall in Hall. apply Forall_forall.
        intros field Hfield. apply valid_field_insert; [ | by apply Hall ].
        intros ->. by apply rainfall_not_required. }
      destruct (recommend_validated_filled _ _ _ _ _ _ _ Hfill Hall' Hx Hengine)
        as (n & p & k & t & h & ph & recs & ws & _ & ->).
      unfold convertible. by rewrite Hv.
    + destruct (py_float v) as [x|e] eqn:Hx.
      * assert (Hitem : float_item data "rainfall" = Ok x)
          by (unfold float_item, getitem; by rewrite Hv).
        assert (Hfill : fill_rainfall mock_rainfall data = Ok (data, "sensor")).
        { unfold fill_rainfall. rewrite Hv. by destruct v. }
        destruct (recommend_validated_filled _ _ _ _ _ _ _ Hfill Hall Hitem
                    Hengine)
          as (n & p & k & t & h & ph & recs & ws & _ & ->).
        by eapply float_item_convertible.
      * rewrite (unconvertible_rainfall_raises _ _ _ _ _ _ Hvalid Hv Hnone Hx).
        by exists v.
  - destruct (get_default_rainfall_ok mock_rainfall) as (r & Hr).
    assert (Hfill : fill_rainfall mock_rainfall data =
              Ok (<["rainfall" := PyFloat r]> data, "estimated (fallback)"))
      by (unfold fill_rainfall; by rewrite Hv, Hr).
    assert (Hx : float_item (<["rainfall" := PyFloat r]> data) "rainfall"
                 = Ok r)
      by (unfold float_item, getitem; by rewrite lookup_insert_eq).
    assert (Hall' : Forall (valid_field (<["rainfall" := PyFloat r]> data))
                      REQUIRED_FIELDS).
    { rewrite Forall_forall in Hall. apply Forall_forall.
      intros field Hfield. apply valid_field_insert; [ | by apply Hall ].
      intros ->. by apply rainfall_not_required. }
    destruct (recommend_validated_filled _ _ _ _ _ _ _ Hfill Hall' Hx Hengine)
      as (n & p & k & t & h & ph & recs & ws & _ & ->).
    unfold convertible. by rewrite Hv.
Qed.

(** The penalty touches the confidences only: with any other penalty the
    loop returns as well, the same crops in the same order. *)
Theorem penalty_keeps_ranking (probabilities : list float)
    (class_labels : list string) (penalty penalty' : float)
    (recs : list recommendation) :
  build_recommendations probabilities class_labels penalty = Ok recs ->
  exists recs',
    build_recommendations probabilities class_labels penalty' = Ok recs'
    /\ map crop recs' = map crop recs
    /\ map crop recs =
         map (fun idx => nth idx class_labels "") (top_indices probabilities).
Proof.
  intros Hrun. apply build_recommendations_inv in Hrun as [-> Hall].
  eexists. split.
  - unfold build_recommendations. by apply append_loop_ok.
  - cbn [app]. rewrite !map_map. by split.
Qed.

End Pipeline.

(** ** Properties of the training data *)

Section TrainingData.

Variable rng : Type.
Variable uniform : rng -> float -> float -> float * rng.
Variable normal : rng -> float -> float -> nat -> list float * rng.

(** [np.random.normal(loc, scale, size=n)] returns [n] draws. *)
Hypothesis normal_size :
  forall g loc scale n, length (normal g loc scale n).1 = n.

Lemma profiles_complete :
  forallb
    (fun entry : string * profile =>
       forallb
         (fun ck : string * string =>
            match dict_get entry.2 ck.2 with
            | Ok _ => true
            | Raise _ => false
            end)
         ROW_KEYS)
    CROP_PROFILES = true.
Proof. vm_compute. reflexivity. Qed.

Lemma draw_loop_ok ranges keys st :
  forallb
    (fun ck : string * string =>
       match dict_get ranges ck.2 with Ok _ => true | Raise _ => false end)
    keys = true ->
  exists st', for_each (draw_feature rng uniform ranges) st keys = Ok st'.
Proof.
  revert st. induction keys as [|[col key] keys IH]; intros [drawn g] Hkeys.
  - by eexists.
  - cbn [forallb snd] in Hkeys. apply andb_prop in Hkeys as [Hkey Hkeys].
    cbn [for_each]. unfold draw_feature at 1.
    destruct (dict_get ranges key) as [[lo hi]|e]; [ | discriminate ].
    cbn [bind fst snd]. destruct (uniform g lo hi) as [x g'].
    cbn [bind]. by apply IH.
Qed.

Lemma draw_row_ok crop ranges g :
  forallb
    (fun ck : string * string =>
       match dict_get ranges ck.2 with Ok _ => true | Raise _ => false end)
    ROW_KEYS = true ->
  exists r g', draw_row rng uniform crop ranges g = Ok (r, g')
               /\ label r = crop.
Proof.
  intros Hkeys. unfold draw_row.
  destruct (draw_loop_ok ranges ROW_KEYS (∅, g) Hkeys) as [[drawn g'] ->].
  cbn [bind]. by eexists _, _.
Qed.

Lemma draw_samples_ok crop ranges (turns : list nat) st :
  forallb
    (fun ck : string * string =>
       match dict_get ranges ck.2 with Ok _ => true | Raise _ => false end)
    ROW_KEYS = true ->
  exists rows g',
    for_each
      (fun (st : list row * rng) (_ : nat) =>
         rg <-- draw_row rng uniform crop ranges st.2 ;;
         Ok (st.1 ++ [rg.1], rg.2))
      st turns = Ok (st.1 ++ rows, g')
    /\ map label rows = repeat crop (length turns).
Proof.
  intros Hkeys. revert st.
  induction turns as [|t turns IH]; intros [df g].
  - exists [], g. cbn. by rewrite app_nil_r.
  - cbn [for_each fst snd].
    destruct (draw_row_ok crop ranges g Hkeys) as (r & g1 & -> & Hlabel).
    cbn [bind fst snd].
    destruct (IH (df ++ [r], g1)) as (rows & g' & -> & Hlabels).
    exists (r :: rows), g'. cbn [fst]. rewrite <- app_assoc. cbn [app].
    split; [ reflexivity | ].
    cbn [map length repeat]. by rewrite Hlabel, Hlabels.
Qed.

Lemma draw_crops_ok (table : list (string * profile)) st :
  forallb
    (fun entry : string * profile =>
       forallb
         (fun ck : string * string =>
            match dict_get entry.2 ck.2 with
            | Ok _ => true
            | Raise _ => false
            end)
         ROW_KEYS)
    table = true ->
  exists rows g',
    for_each (draw_crop rng uniform) st table = Ok (st.1 ++ rows, g')
    /\ map label rows =
         flat_map (fun entry => repeat entry.1 SAMPLES_PER_CROP) table.
Proof.
  revert st. induction table as [|[crop ranges] table IH]; intros [df g] Hall.
  - exists [], g. cbn. by rewrite app_nil_r.
  - cbn [forallb snd] in Hall. apply andb_prop in Hall as [Hkeys Hall].
    cbn [for_each]. unfold draw_crop at 1. cbn [fst snd].
    destruct (draw_samples_ok crop ranges (seq 0 SAMPLES_PER_CROP) (df, g)
                Hkeys) as (rows & g1 & -> & Hlabels).
    cbn [bind fst].
    destruct (IH (df ++ rows, g1) Hall) as (rows' & g' & -> & Hlabels').
    exists (rows ++ rows'), g'. cbn [fst]. rewrite <- app_assoc.
    split; [ reflexivity | ].
    cbn [flat_map fst]. rewrite map_app, Hlabels, Hlabels', length_seq.
    reflexivity.
Qed.

Lemma set_column_inv col values df df' :
  set_column col values df = Ok df' ->
  length values = length df
  /\ df' = zip_with
             (fun r x =>
                {| features := <[col := x]> (features r); label := label r |})
             df values.
Proof.
  unfold set_column.
  destruct (Nat.eqb_spec (length values) (length df)) as [Hlen|];
    [ | discriminate ].
  intros [= <-]. by split.
Qed.

Lemma set_column_run col values df :
  length values = length df ->
  exists df', set_column col values df = Ok df'.
Proof.
  intros Hlen. unfold set_column. rewrite Hlen, Nat.eqb_refl. by eexists.
Qed.

Lemma set_column_labels col values df df' :
  set_column col values df = Ok df' -> map label df' = map label df.
Proof.
  intros Hset. apply set_column_inv in Hset as [Hlen ->].
  revert values Hlen.
  induction df as [|r df IH]; intros [|x values] Hlen; try discriminate;
    [ reflexivity | ].
  cbn [zip_with map label]. f_equal. apply IH. by injection Hlen.
Qed.


Lemma column_length col df : length (column col df) = length df.
Proof. unfold column. apply length_map. Qed.

Lemma series_add_run series array :
  length array = length series ->
  series_add series array = Ok (zip_with PrimFloat.add series array).
Proof. intros Hlen. unfold series_add. by rewrite Hlen, Nat.eqb_refl. Qed.

(** A turn of the noise loop returns, since the noise has one draw per
    row, and keeps the labels. *)
Lemma add_noise_ok st col :
  exists st',
    add_noise rng normal st col = Ok st' /\ map label st'.1 = map label st.1.
Proof.
  destruct st as [df g]. unfold add_noise.
  pose proof (normal_size g 0%float 0.5%float (length df)) as Hsize.
  destruct (normal g 0%float 0.5%float (length df)) as [noise g'].
  cbn [fst] in *.
  rewrite series_add_run by (by rewrite column_length).
  cbn [bind].
  destruct (set_column_run col (zip_with PrimFloat.add (column col df) noise) df)
    as [df' Hset];
    [ rewrite length_zip_with, column_length, Hsize; lia | ].
  rewrite Hset. cbn [bind]. eexists. split; [ reflexivity | ].
  cbn [fst]. by eapply set_column_labels.
Qed.

Lemma noise_loop_ok cols st :
  exists st',
    for_each (add_noise rng normal) st cols = Ok st'
    /\ map label st'.1 = map label st.1.
Proof.
  revert st. induction cols as [|col cols IH]; intros st.
  - by exists st.
  - cbn [for_each]. destruct (add_noise_ok st col) as (st1 & -> & Hlabels).
    destruct (IH st1) as (st' & Hloop & Hlabels').
    exists st'. split; [ exact Hloop | ]. by rewrite Hlabels'.
Qed.

(** The run of the generator: the rows drawn, the frame after the noise,
    and the frame returned, the pH column clipped. *)
Lemma generate_synthetic_data_run (g : rng) :
  exists df0 df g',
    generate_synthetic_data rng uniform normal g = Ok (df, g')
    /\ set_column "ph" (map (clip 0 14) (column "ph" df0)) df0 = Ok df
    /\ map label df =
         flat_map (fun entry => repeat entry.1 SAMPLES_PER_CROP) CROP_PROFILES.
Proof.
  unfold generate_synthetic_data.
  destruct (draw_crops_ok CROP_PROFILES ([], g) profiles_complete)
    as (rows & g1 & -> & Hlabels).
  cbn [bind fst app].
  destruct (noise_loop_ok FEATURE_COLUMNS (rows, g1))
    as ([df0 g'] & -> & Hnoise).
  cbn [bind fst] in *.
  destruct (set_column_run "ph" (map (clip 0 14) (column "ph" df0)) df0)
    as [df Hset]; [ by rewrite length_map, column_length | ].
  rewrite Hset. cbn [bind]. exists df0, df, g'.
  split; [ reflexivity | ]. split; [ exact Hset | ].
  by rewrite (set_column_labels _ _ _ _ Hset), Hnoise.
Qed.


Lemma labels_balanced :
  forallb
    (fun entry : string * profile =>
       Nat.eqb
         (length
            (List.filter (String.eqb entry.1)
               (flat_map
                  (fun e : string * profile => repeat e.1 SAMPLES_PER_CROP)
                  CROP_PROFILES)))
         SAMPLES_PER_CROP)
    CROP_PROFILES = true.
Proof. vm_compute. reflexivity. Qed.

(** The generator returns for every state of the random generator, with
    one row per crop and sample: 22 crops, 120 rows each and in table order,
    2640 rows in all; the noise and the clipping keep every row's label. *)
Theorem synthetic_data_balanced (g : rng) :
  exists df g',
    generate_synthetic_data rng uniform normal g = Ok (df, g')
    /\ map label df =
         flat_map (fun entry => repeat entry.1 SAMPLES_PER_CROP) CROP_PROFILES
    /\ length df = 2640
    /\ (forall crop ranges,
          (crop, ranges) ∈ CROP_PROFILES ->
          length (List.filter (fun r => String.eqb crop (label r)) df)
          = SAMPLES_PER_CROP).
Proof.
  destruct (generate_synthetic_data_run g) as (df0 & df & g' & Hrun & _ & Hfinal).
  exists df, g'. split; [ exact Hrun | ].
  split; [ exact Hfinal | ].
  split.
  - rewrite <- (length_map label), Hfinal. vm_compute. reflexivity.
  - intros crop ranges Hcrop.
    pose proof labels_balanced as Hbal. rewrite forallb_forall in Hbal.
    apply list_elem_of_In in Hcrop. specialize (Hbal _ Hcrop).
    cbn [fst] in Hbal. apply Nat.eqb_eq in Hbal.
    rewrite <- Hbal, <- Hfinal.
    generalize df.
    intros l. induction l as [|r l IH]; [ reflexivity | ].
    cbn [map List.filter]. destruct (String.eqb crop (label r)); cbn [length];
      by rewrite IH.
Qed.


End TrainingData.

(** ** Sample runs *)

Lemma sample_engine_answers :
  engine_answers insertion_argsort sample_model sample_scaler.
Proof.
  intros features. exists features, [0.1; 0.6; 0.05; 0.25]%float.
  repeat split. apply (bool_decide_unpack _). vm_compute. exact I.
Qed.

(** The scenario of the specification: no rainfall in the reading. *)
Example reading_run :
  recommend_crop float_of_digits sample_repr insertion_argsort
    (Some sample_model) (Some sample_scaler) (Ok 143.7%float) (Some reading)
  = Success
      [ {| crop := "Wheat"; confidence := "60%" |};
        {| crop := "Jute"; confidence := "25%" |};
        {| crop := "Rice"; confidence := "10%" |} ]
      None "estimated (fallback)" 143.7%float.
Proof. vm_compute. reflexivity. Qed.

(** The scenario of the specification: the field K is missing. *)
Example missing_K_run :
  recommend_crop float_of_digits sample_repr insertion_argsort
    (Some sample_model) (Some sample_scaler) (Ok 143.7%float)
    (Some (delete "K" reading))
  = BadRequest ["Missing required field: 'K'."].
Proof. vm_compute. reflexivity. Qed.

(** Two fields out of range: two warnings, and 0.2 off every confidence. *)
Example hot_reading_run :
  recommend_crop float_of_digits sample_repr insertion_argsort
    (Some sample_model) (Some sample_scaler) (Ok 143.7%float) (Some hot_reading)
  = Success
      [ {| crop := "Wheat"; confidence := "40%" |};
        {| crop := "Jute"; confidence := "5%" |};
        {| crop := "Rice"; confidence := "1%" |} ]
      (Some
         [ "Input Nitrogen (N) (-5.0) is below the expected minimum (0).";
           "Input Temperature (120.0) is above the expected maximum (60)." ])
      "estimated (fallback)" 143.7%float.
Proof. vm_compute. reflexivity. Qed.

Lemma check_realistic_ranges_penalty_witness :
  numeric float_of_digits hot_reading = true
  /\ exists warnings,
       check_realistic_ranges float_of_digits sample_repr hot_reading =
         Ok (warnings,
             py_min
               (0.1 * float_of_Z
                        (Z.of_nat (violation_count float_of_digits hot_reading)))%float
               0.5%float)
       /\ length warnings = violation_count float_of_digits hot_reading
       /\ (forall entry, is_none (hot_reading !! entry.1) = true ->
             violates float_of_digits hot_reading entry = false).
Proof.
  split; [ vm_compute; reflexivity | ].
  apply (check_realistic_ranges_penalty float_of_digits sample_repr hot_reading).
  vm_compute. reflexivity.
Defined.

(** C1, as stated, refuted: a reading that passes validation, with a
    rainfall value [float] rejects; [check_realistic_ranges] raises and
    returns no penalty at all. *)
Lemma garbled_reading_no_penalty :
  validate_input float_of_digits sample_repr (Some garbled_reading) = Ok []
  /\ check_realistic_ranges float_of_digits sample_repr garbled_reading =
       Raise ValueError
  /\ ~ (exists warnings penalty,
          check_realistic_ranges float_of_digits sample_repr garbled_reading =
            Ok (warnings, penalty)).
Proof.
  assert (Hrun : check_realistic_ranges float_of_digits sample_repr
                   garbled_reading = Raise ValueError)
    by (vm_compute; reflexivity).
  split; [ vm_compute; reflexivity | ].
  split; [ exact Hrun | ].
  intros (warnings & penalty & Hok). rewrite Hrun in Hok. discriminate.
Qed.

Lemma reported_confidence_witness :
  build_recommendations insertion_argsort [0.1; 0.6; 0.05; 0.25]%float
    ["Rice"; "Wheat"; "Maize"; "Jute"] 0.2%float
  = Ok [ {| crop := "Wheat"; confidence := "40%" |};
         {| crop := "Jute"; confidence := "5%" |};
         {| crop := "Rice"; confidence := "1%" |} ]
  /\ Forall2
       (fun idx r =>
          exists raw,
            [0.1; 0.6; 0.05; 0.25]%float !! idx = Some raw
            /\ confidence r =
                 format_0f (py_max (raw - 0.2) 0.01 * 100)%float +:+ "%"
            /\ (py_max (raw - 0.2) 0.01 <? 0.01)%float = false
            /\ (py_max (raw - 0.2) 0.01 <=? 0)%float = false
            /\ (is_nan (raw - 0.2)%float = false ->
                 (0.01 <=? py_max (raw - 0.2) 0.01)%float = true))
       (top_indices insertion_argsort [0.1; 0.6; 0.05; 0.25]%float)
       [ {| crop := "Wheat"; confidence := "40%" |};
         {| crop := "Jute"; confidence := "5%" |};
         {| crop := "Rice"; confidence := "1%" |} ].
Proof.
  split; [ vm_compute; reflexivity | ].
  apply (reported_confidence insertion_argsort _ ["Rice"; "Wheat"; "Maize"; "Jute"]).
  vm_compute. reflexivity.
Defined.

Lemma sorts_sample :
  sorts [0.1; 0.6; 0.05; 0.25]%float
    (insertion_argsort [0.1; 0.6; 0.05; 0.25]%float).
Proof.
  split; [ apply (bool_decide_unpack _); vm_compute; exact I | ].
  vm_compute. repeat constructor.
Qed.

Lemma recommendations_descending_witness :
  sorts [0.1; 0.6; 0.05; 0.25]%float
    (insertion_argsort [0.1; 0.6; 0.05; 0.25]%float)
  /\ exists recs,
       build_recommendations insertion_argsort [0.1; 0.6; 0.05; 0.25]%float
         ["Rice"; "Wheat"; "Maize"; "Jute"] 0%float = Ok recs
       /\ recs = map (recommendation_of [0.1; 0.6; 0.05; 0.25]%float
                        ["Rice"; "Wheat"; "Maize"; "Jute"] 0%float)
                   (top_indices insertion_argsort [0.1; 0.6; 0.05; 0.25]%float)
       /\ StronglySorted (flip (prob_le [0.1; 0.6; 0.05; 0.25]%float))
            (top_indices insertion_argsort [0.1; 0.6; 0.05; 0.25]%float)
       /\ (forall i j,
             i ∈ top_indices insertion_argsort [0.1; 0.6; 0.05; 0.25]%float ->
             j < length [0.1; 0.6; 0.05; 0.25]%float ->
             j ∉ top_indices insertion_argsort [0.1; 0.6; 0.05; 0.25]%float ->
             prob_le [0.1; 0.6; 0.05; 0.25]%float j i)
       /\ (forall a b i j,
             top_indices insertion_argsort [0.1; 0.6; 0.05; 0.25]%float !! a
               = Some i ->
             top_indices insertion_argsort [0.1; 0.6; 0.05; 0.25]%float !! b
               = Some j ->
             a < b ->
             exists a' b',
               insertion_argsort [0.1; 0.6; 0.05; 0.25]%float !! a' = Some i
               /\ insertion_argsort [0.1; 0.6; 0.05; 0.25]%float !! b' = Some j
               /\ b' < a').
Proof.
  split; [ exact sorts_sample | ].
  apply (recommendations_descending insertion_argsort);
    [ exact sorts_sample | reflexivity ].
Defined.

(** C3, the tie rule refuted: on probabilities 0.5, 0.5, 0 numpy's insertion
    sort meets the promise of [np.argsort], and the handler returns class 1
    before class 0, two classes of equal probability out of class order. *)
Lemma ties_come_out_reversed :
  sorts [0.5; 0.5; 0]%float (insertion_argsort [0.5; 0.5; 0]%float)
  /\ build_recommendations insertion_argsort [0.5; 0.5; 0]%float
       ["Rice"; "Wheat"; "Maize"] 0%float
     = Ok [ {| crop := "Wheat"; confidence := "50%" |};
            {| crop := "Rice"; confidence := "50%" |};
            {| crop := "Maize"; confidence := "1%" |} ]
  /\ ~ ties_keep_class_order [0.5; 0.5; 0]%float
         (top_indices insertion_argsort [0.5; 0.5; 0]%float).
Proof.
  split.
  { split; [ apply (bool_decide_unpack _); vm_compute; exact I | ].
    vm_compute. repeat constructor. }
  split; [ vm_compute; reflexivity | ].
  intros Hties.
  specialize (Hties 1 0 0 1 eq_refl eq_refl eq_refl). lia.
Qed.

Lemma recommendations_length_witness :
  insertion_argsort [0.3; 0.7]%float ≡ₚ seq 0 (length [0.3; 0.7]%float)
  /\ exists recs,
       build_recommendations insertion_argsort [0.3; 0.7]%float
         ["Rice"; "Wheat"] 0%float = Ok recs
       /\ length recs = Nat.min 3 (length [0.3; 0.7]%float)
       /\ recs = map (recommendation_of [0.3; 0.7]%float ["Rice"; "Wheat"]
                        0%float)
                   (top_indices insertion_argsort [0.3; 0.7]%float)
       /\ NoDup (top_indices insertion_argsort [0.3; 0.7]%float)
       /\ Forall (fun idx => idx < length [0.3; 0.7]%float)
            (top_indices insertion_argsort [0.3; 0.7]%float).
Proof.
  assert (Hperm : insertion_argsort [0.3; 0.7]%float ≡ₚ
                    seq 0 (length [0.3; 0.7]%float))
    by (apply (bool_decide_unpack _); vm_compute; exact I).
  split; [ exact Hperm | ].
  apply (recommendations_length insertion_argsort);
    [ exact Hperm | reflexivity ].
Defined.

(** Two classes only: both are returned, the likelier first. *)
Example two_classes_run :
  build_recommendations insertion_argsort [0.3; 0.7]%float ["Rice"; "Wheat"]
    0%float
  = Ok [ {| crop := "Wheat"; confidence := "70%" |};
         {| crop := "Rice"; confidence := "30%" |} ].
Proof. vm_compute. reflexivity. Qed.

Lemma rainfall_source_recorded_witness :
  (validate_input float_of_digits sample_repr (Some reading) = Ok []
   /\ is_none (reading !! "rainfall") = true
   /\ engine_answers insertion_argsort sample_model sample_scaler
   /\ exists r n p k t h ph ws penalty,
        get_default_rainfall (Ok 143.7%float) = Ok r
        /\ feature_values float_of_digits (<["rainfall" := PyFloat r]> reading) =
             Ok [n; p; k; t; h; ph; r]
        /\ check_realistic_ranges float_of_digits sample_repr
             (<["rainfall" := PyFloat r]> reading) = Ok (ws, penalty)
        /\ recommend_crop float_of_digits sample_repr insertion_argsort
             (Some sample_model) (Some sample_scaler) (Ok 143.7%float)
             (Some reading) =
             match
               engine_recommendations insertion_argsort sample_model
                 sample_scaler [n; p; k; t; h; ph; r] penalty
             with
             | Ok recs => Success recs (or_none ws) "estimated (fallback)" r
             | Raise e => ServerError e
             end
        /\ exists recs,
             engine_recommendations insertion_argsort sample_model
               sample_scaler [n; p; k; t; h; ph; r] penalty = Ok recs
             /\ recommend_crop float_of_digits sample_repr insertion_argsort
                  (Some sample_model) (Some sample_scaler) (Ok 143.7%float)
                  (Some reading) =
                  Success recs (or_none ws) "estimated (fallback)" r)
  /\ (validate_input float_of_digits sample_repr (Some gauged_reading) = Ok []
      /\ gauged_reading !! "rainfall" = Some (PyFloat 210.5)
      /\ py_float float_of_digits (PyFloat 210.5) = Ok 210.5%float
      /\ exists n p k t h ph ws penalty,
           feature_values float_of_digits gauged_reading =
             Ok [n; p; k; t; h; ph; 210.5%float]
           /\ check_realistic_ranges float_of_digits sample_repr gauged_reading
              = Ok (ws, penalty)
           /\ recommend_crop float_of_digits sample_repr insertion_argsort
                (Some sample_model) (Some sample_scaler) (Ok 143.7%float)
                (Some gauged_reading) =
                match
                  engine_recommendations insertion_argsort sample_model
                    sample_scaler [n; p; k; t; h; ph; 210.5%float] penalty
                with
                | Ok recs => Success recs (or_none ws) "sensor" 210.5%float
                | Raise e => ServerError e
                end
           /\ exists recs,
                engine_recommendations insertion_argsort sample_model
                  sample_scaler [n; p; k; t; h; ph; 210.5%float] penalty
                = Ok recs
                /\ recommend_crop float_of_digits sample_repr insertion_argsort
                     (Some sample_model) (Some sample_scaler) (Ok 143.7%float)
                     (Some gauged_reading) =
                     Success recs (or_none ws) "sensor" 210.5%float).
Proof.
  assert (Hvalid : validate_input float_of_digits sample_repr (Some reading)
                   = Ok []) by (vm_compute; reflexivity).
  assert (Hgauged : validate_input float_of_digits sample_repr
                      (Some gauged_reading) = Ok [])
    by (vm_compute; reflexivity).
  assert (Hnone : is_none (reading !! "rainfall") = true)
    by (vm_compute; reflexivity).
  assert (Hsome : gauged_reading !! "rainfall" = Some (PyFloat 210.5))
    by (vm_compute; reflexivity).
  split.
  - split; [ exact Hvalid | ]. split; [ exact Hnone | ].
    split; [ exact sample_engine_answers | ].
    destruct (rainfall_source_recorded float_of_digits sample_repr
                insertion_argsort sample_model sample_scaler (Ok 143.7%float)
                reading Hvalid) as [Hfallback _].
    destruct (Hfallback Hnone)
      as (r & n & p & k & t & h & ph & ws & penalty
          & Hr & Hfv & Hcheck & Hrun & Hanswers).
    exists r, n, p, k, t, h, ph, ws, penalty.
    split; [ exact Hr | ]. split; [ exact Hfv | ]. split; [ exact Hcheck | ].
    split; [ exact Hrun | exact (Hanswers sample_engine_answers) ].
  - split; [ exact Hgauged | ]. split; [ exact Hsome | ].
    split; [ reflexivity | ].
    destruct (rainfall_source_recorded float_of_digits sample_repr
                insertion_argsort sample_model sample_scaler (Ok 143.7%float)
                gauged_reading Hgauged) as [_ Hsensor].
    destruct (Hsensor (PyFloat 210.5) 210.5%float Hsome eq_refl)
      as (n & p & k & t & h & ph & ws & penalty
          & Hfv & Hcheck & Hrun & Hanswers).
    exists n, p, k, t, h, ph, ws, penalty.
    split; [ exact Hfv | ]. split; [ exact Hcheck | ].
    split; [ exact Hrun | exact (Hanswers sample_engine_answers) ].
Defined.

(** The two halves at work: the sensor's value, and the fallback. *)
Example gauged_reading_run :
  recommend_crop float_of_digits sample_repr insertion_argsort
    (Some sample_model) (Some sample_scaler) (Ok 143.7%float)
    (Some gauged_reading)
  = Success
      [ {| crop := "Wheat"; confidence := "60%" |};
        {| crop := "Jute"; confidence := "25%" |};
        {| crop := "Rice"; confidence := "10%" |} ]
      None "sensor" 210.5%float.
Proof. vm_compute. reflexivity. Qed.

Example fallback_without_api_run :
  recommend_crop float_of_digits sample_repr insertion_argsort
    (Some sample_model) (Some sample_scaler) (Raise ValueError) (Some reading)
  = Success
      [ {| crop := "Wheat"; confidence := "60%" |};
        {| crop := "Jute"; confidence := "25%" |};
        {| crop := "Rice"; confidence := "10%" |} ]
      None "estimated (fallback)" 120%float.
Proof. vm_compute. reflexivity. Qed.

(** The estimate reaches the scaler: one that refuses every row ending in
    143.7 turns the answer into a 500, and answers the reading with a gauge. *)
Example scaler_sees_estimate :
  let shy :=
    {| transform := fun row =>
         match row with
         | [_; _; _; _; _; _; r] =>
             if (r =? 143.7)%float then Raise ValueError else Ok row
         | _ => Ok row
         end |} in
  recommend_crop float_of_digits sample_repr insertion_argsort
    (Some sample_model) (Some shy) (Ok 143.7%float) (Some reading)
  = ServerError ValueError
  /\ status_code
       (recommend_crop float_of_digits sample_repr insertion_argsort
          (Some sample_model) (Some shy) (Ok 143.7%float)
          (Some gauged_reading)) = 200%Z.
Proof. split; vm_compute; reflexivity. Qed.

(** C5, as stated, refuted: this request passes validation and supplies a
    rainfall value, the artifacts answer, and the response is a 500 with no
    metadata, not a success whose source is "sensor". *)
Lemma garbled_rainfall_no_sensor :
  validate_input float_of_digits sample_repr (Some garbled_reading) = Ok []
  /\ garbled_reading !! "rainfall" = Some (PyStr "abc")
  /\ engine_answers insertion_argsort sample_model sample_scaler
  /\ recommend_crop float_of_digits sample_repr insertion_argsort
       (Some sample_model) (Some sample_scaler) (Ok 143.7%float)
       (Some garbled_reading) = ServerError ValueError
  /\ ~ (exists recs w x,
          recommend_crop float_of_digits sample_repr insertion_argsort
            (Some sample_model) (Some sample_scaler) (Ok 143.7%float)
            (Some garbled_reading) = Success recs w "sensor" x).
Proof.
  assert (Hrun : recommend_crop float_of_digits sample_repr insertion_argsort
                   (Some sample_model) (Some sample_scaler) (Ok 143.7%float)
                   (Some garbled_reading) = ServerError ValueError)
    by (vm_compute; reflexivity).
  split; [ vm_compute; reflexivity | ].
  split; [ vm_compute; reflexivity | ].
  split; [ exact sample_engine_answers | ].
  split; [ exact Hrun | ].
  intros (recs & w & x & Hsuccess). rewrite Hrun in Hsuccess. discriminate.
Qed.

Lemma feature_vector_order_witness :
  float_item float_of_digits (<["rainfall" := PyFloat 143.7]> reading) "N"
    = Ok 90%float
  /\ float_item float_of_digits (<["rainfall" := PyFloat 143.7]> reading)
       "rainfall" = Ok 143.7%float
  /\ validate_input float_of_digits sample_repr (Some reading) = Ok []
  /\ fill_rainfall (Ok 143.7%float) reading =
       Ok (<["rainfall" := PyFloat 143.7]> reading, "estimated (fallback)")
  /\ feature_values float_of_digits (<["rainfall" := PyFloat 143.7]> reading) =
       Ok [90; 42; 43; 25; 80; 6.5; 143.7]%float
  /\ map (float_item float_of_digits (<["rainfall" := PyFloat 143.7]> reading))
       FEATURE_ORDER = map Ok [90; 42; 43; 25; 80; 6.5; 143.7]%float
  /\ (forall m,
        feature_values float_of_digits
          (<["moisture" := m]> (<["rainfall" := PyFloat 143.7]> reading)) =
          Ok [90; 42; 43; 25; 80; 6.5; 143.7]%float)
  /\ (forall model sc,
        valid_field float_of_digits reading "moisture"
        /\ exists ws penalty,
             check_realistic_ranges float_of_digits sample_repr
               (<["rainfall" := PyFloat 143.7]> reading) = Ok (ws, penalty)
             /\ recommend_crop float_of_digits sample_repr insertion_argsort
                  (Some model) (Some sc) (Ok 143.7%float) (Some reading) =
                  match transform sc [90; 42; 43; 25; 80; 6.5; 143.7]%float with
                  | Raise e => ServerError e
                  | Ok scaled_features =>
                      match predict_proba model scaled_features with
                      | Raise e => ServerError e
                      | Ok probabilities =>
                          match
                            build_recommendations insertion_argsort
                              probabilities (classes_ model) penalty
                          with
                          | Raise e => ServerError e
                          | Ok recs =>
                              Success recs (or_none ws) "estimated (fallback)"
                                143.7%float
                          end
                      end
                  end).
Proof.
  assert (Hvalid : validate_input float_of_digits sample_repr (Some reading)
                   = Ok []) by (vm_compute; reflexivity).
  assert (Hfill : fill_rainfall (Ok 143.7%float) reading =
                    Ok (<["rainfall" := PyFloat 143.7]> reading,
                        "estimated (fallback)")) by reflexivity.
  split; [ vm_compute; reflexivity | ].
  split; [ vm_compute; reflexivity | ].
  split; [ exact Hvalid | ]. split; [ exact Hfill | ].
  destruct (feature_vector_order float_of_digits sample_repr insertion_argsort
              (<["rainfall" := PyFloat 143.7]> reading)
              90 42 43 25 80 6.5 143.7) as (Hfv & Hmap & Hmoisture & Hrun);
    try (vm_compute; reflexivity).
  split; [ exact Hfv | ]. split; [ exact Hmap | ].
  split; [ exact Hmoisture | ].
  intros model sc.
  exact (Hrun model sc (Ok 143.7%float) reading "estimated (fallback)"
           Hvalid Hfill).
Defined.

Lemma warnings_reported_witness :
  numeric float_of_digits hot_reading = true
  /\ check_realistic_ranges float_of_digits sample_repr hot_reading =
       Ok ([ "Input Nitrogen (N) (-5.0) is below the expected minimum (0).";
             "Input Temperature (120.0) is above the expected maximum (60)." ],
           0.2%float)
  /\ exists pen,
       check_realistic_ranges float_of_digits sample_repr hot_reading =
         Ok (map (warning_text float_of_digits sample_repr hot_reading)
               (List.filter (violates float_of_digits hot_reading)
                  REALISTIC_RANGES), pen).
Proof.
  split; [ vm_compute; reflexivity | ].
  split; [ vm_compute; reflexivity | ].
  apply (warnings_reported float_of_digits sample_repr insertion_argsort
           hot_reading).
  vm_compute. reflexivity.
Defined.

(** C9, as stated, refuted: N is present and strictly below its range, the
    reading passes validation, and no warning for N is emitted:
    [check_realistic_ranges] raises on the rainfall value before it returns
    any. *)
Lemma garbled_reading_no_warning :
  validate_input float_of_digits sample_repr (Some garbled_hot_reading) = Ok []
  /\ violates float_of_digits garbled_hot_reading
       ("N", (0%Z, 200%Z, "Nitrogen (N)")) = true
  /\ check_realistic_ranges float_of_digits sample_repr garbled_hot_reading =
       Raise ValueError
  /\ ~ (exists warnings penalty,
          check_realistic_ranges float_of_digits sample_repr
            garbled_hot_reading = Ok (warnings, penalty)).
Proof.
  assert (Hrun : check_realistic_ranges float_of_digits sample_repr
                   garbled_hot_reading = Raise ValueError)
    by (vm_compute; reflexivity).
  split; [ vm_compute; reflexivity | ].
  split; [ vm_compute; reflexivity | ].
  split; [ exact Hrun | ].
  intros (warnings & penalty & Hok). rewrite Hrun in Hok. discriminate.
Qed.

Lemma unconvertible_rainfall_500_witness :
  validate_input float_of_digits sample_repr (Some garbled_reading) = Ok []
  /\ garbled_reading !! "rainfall" = Some (PyStr "abc")
  /\ py_float float_of_digits (PyStr "abc") = Raise ValueError
  /\ check_realistic_ranges float_of_digits sample_repr garbled_reading =
       Raise ValueError
  /\ recommend_crop float_of_digits sample_repr insertion_argsort
       (Some sample_model) (Some sample_scaler) (Ok 143.7%float)
       (Some garbled_reading) = ServerError ValueError
  /\ status_code
       (recommend_crop float_of_digits sample_repr insertion_argsort
          (Some sample_model) (Some sample_scaler) (Ok 143.7%float)
          (Some garbled_reading)) = 500%Z.
Proof.
  split; [ vm_compute; reflexivity | ].
  split; [ vm_compute; reflexivity | ].
  split; [ vm_compute; reflexivity | ].
  apply (unconvertible_rainfall_500 float_of_digits sample_repr
           insertion_argsort sample_model sample_scaler (Ok 143.7%float)
           garbled_reading (PyStr "abc") ValueError);
    [ vm_compute; reflexivity | vm_compute; reflexivity | discriminate
    | vm_compute; reflexivity ].
Defined.

(** C4, where the code parts from it: the field N holds the integer 10^400,
    [float] raises [OverflowError], which the handler of [validate_input]
    does not catch: no error list is returned, and the request is answered
    500 instead of 400. *)
Theorem huge_integer_escapes_validation :
  validate_input float_of_digits sample_repr (Some huge_reading) =
    Raise OverflowError
  /\ recommend_crop float_of_digits sample_repr insertion_argsort
       (Some sample_model) (Some sample_scaler) (Ok 143.7%float)
       (Some huge_reading) = ServerError OverflowError.
Proof. split; vm_compute; reflexivity. Qed.

Lemma validate_input_collects_witness :
  Forall (fun field => raises_uncaught float_of_digits garbled_reading field = false)
    REQUIRED_FIELDS
  /\ validate_input float_of_digits sample_repr
       (Some (<["ph" := PyStr "acid"]> (delete "K" garbled_reading))) =
       Ok [ "Missing required field: 'K'.";
            "Field 'ph' must be a number, got: 'acid'." ]
  /\ validate_input float_of_digits sample_repr (Some garbled_reading) =
       Ok (omap (field_error float_of_digits sample_repr garbled_reading)
             REQUIRED_FIELDS).
Proof.
  assert (Hall : Forall
            (fun field => raises_uncaught float_of_digits garbled_reading field
                          = false) REQUIRED_FIELDS)
    by (repeat constructor).
  split; [ exact Hall | ].
  split; [ vm_compute; reflexivity | ].
  apply (validate_input_collects float_of_digits sample_repr garbled_reading Hall).
Defined.

Lemma validate_input_overflow_witness :
  "N" ∈ REQUIRED_FIELDS
  /\ raises_uncaught float_of_digits huge_reading "N" = true
  /\ validate_input float_of_digits sample_repr (Some huge_reading) =
       Raise OverflowError.
Proof.
  assert (Hin : "N" ∈ REQUIRED_FIELDS) by (repeat constructor).
  split; [ exact Hin | ].
  split; [ vm_compute; reflexivity | ].
  apply (validate_input_overflow float_of_digits sample_repr huge_reading "N"
           Hin).
  vm_compute. reflexivity.
Defined.

(** A body that is absent: one error, whatever else. *)
Example empty_body_run :
  recommend_crop float_of_digits sample_repr insertion_argsort
    (Some sample_model) (Some sample_scaler) (Ok 143.7%float) None
  = BadRequest ["Request body is empty or not valid JSON."].
Proof. vm_compute. reflexivity. Qed.

Lemma success_shape_witness :
  recommend_crop float_of_digits sample_repr insertion_argsort
    (Some sample_model) (Some sample_scaler) (Ok 143.7%float) (Some reading)
  = Success
      [ {| crop := "Wheat"; confidence := "60%" |};
        {| crop := "Jute"; confidence := "25%" |};
        {| crop := "Rice"; confidence := "10%" |} ]
      None "estimated (fallback)" 143.7%float
  /\ exists model sc d,
       Some sample_model = Some model /\ Some sample_scaler = Some sc
       /\ Some reading = Some d
       /\ validate_input float_of_digits sample_repr (Some d) = Ok []
       /\ length
            [ {| crop := "Wheat"; confidence := "60%" |};
              {| crop := "Jute"; confidence := "25%" |};
              {| crop := "Rice"; confidence := "10%" |} ] <= 3
       /\ Forall (fun r => crop r ∈ classes_ model)
            [ {| crop := "Wheat"; confidence := "60%" |};
              {| crop := "Jute"; confidence := "25%" |};
              {| crop := "Rice"; confidence := "10%" |} ]
       /\ ((is_none (d !! "rainfall") = true
            /\ "estimated (fallback)" = "estimated (fallback)"
            /\ get_default_rainfall (Ok 143.7%float) = Ok 143.7%float)
           \/ (is_none (d !! "rainfall") = false
               /\ "estimated (fallback)" = "sensor"
               /\ float_item float_of_digits d "rainfall" = Ok 143.7%float)).
Proof.
  split; [ vm_compute; reflexivity | ].
  apply (success_shape float_of_digits sample_repr insertion_argsort
           (Some sample_model) (Some sample_scaler) (Ok 143.7%float)
           (Some reading) _ None).
  vm_compute. reflexivity.
Defined.

Lemma penalty_bounds_witness :
  check_realistic_ranges float_of_digits sample_repr hot_reading
  = Ok ([ "Input Nitrogen (N) (-5.0) is below the expected minimum (0).";
          "Input Temperature (120.0) is above the expected maximum (60)." ],
        0.2%float)
  /\ (0 <=? 0.2)%float = true
  /\ (0.2 <=? 0.5)%float = true
  /\ In 0.2%float [0; 0.1; 0.2; 0.1 + 0.1 + 0.1; 0.4; 0.5]%float
  /\ length
       [ "Input Nitrogen (N) (-5.0) is below the expected minimum (0).";
         "Input Temperature (120.0) is above the expected maximum (60)." ]
     <= 8
  /\ ([ "Input Nitrogen (N) (-5.0) is below the expected minimum (0).";
        "Input Temperature (120.0) is above the expected maximum (60)." ]
      = [] <-> (0.2 =? 0)%float = true)
  /\ ([ "Input Nitrogen (N) (-5.0) is below the expected minimum (0).";
        "Input Temperature (120.0) is above the expected maximum (60)." ]
      <> [] -> (0.1 <=? 0.2)%float = true).
Proof.
  split; [ vm_compute; reflexivity | ].
  apply (penalty_bounds float_of_digits sample_repr hot_reading
           [ "Input Nitrogen (N) (-5.0) is below the expected minimum (0).";
             "Input Temperature (120.0) is above the expected maximum (60)." ]
           0.2%float).
  vm_compute. reflexivity.
Defined.

Lemma unknown_field_ignored_witness :
  ("device_id" ∉ KNOWN_FIELDS)
  /\ recommend_crop float_of_digits sample_repr insertion_argsort
       (Some sample_model) (Some sample_scaler) (Ok 143.7%float)
       (Some tagged_reading)
     = recommend_crop float_of_digits sample_repr insertion_argsort
         (Some sample_model) (Some sample_scaler) (Ok 143.7%float)
         (Some gauged_reading).
Proof.
  assert (Hkey : "device_id" ∉ KNOWN_FIELDS).
  { intros Hin. unfold KNOWN_FIELDS, REALISTIC_RANGES in Hin.
    cbn [map fst] in Hin.
    repeat (apply elem_of_cons in Hin as [Hin | Hin]; [ discriminate | ]).
    by apply elem_of_nil in Hin. }
  split; [ exact Hkey | ].
  apply (unknown_field_ignored float_of_digits sample_repr insertion_argsort
           (Some sample_model) (Some sample_scaler) (Ok 143.7%float)
           gauged_reading "device_id" (PyStr "esp32-7") Hkey).
Defined.

Lemma field_read_through_float_witness :
  py_float float_of_digits (PyStr "90") = Ok 90%float
  /\ recommend_crop float_of_digits sample_repr insertion_argsort
       (Some sample_model) (Some sample_scaler) (Ok 143.7%float)
       (Some (<["N" := PyStr "90"]> reading))
     = recommend_crop float_of_digits sample_repr insertion_argsort
         (Some sample_model) (Some sample_scaler) (Ok 143.7%float)
         (Some (<["N" := PyFloat 90]> reading)).
Proof.
  split; [ vm_compute; reflexivity | ].
  apply (field_read_through_float float_of_digits sample_repr
           insertion_argsort).
  vm_compute. reflexivity.
Defined.

Lemma estimate_costs_nothing_witness :
  is_none (hot_reading !! "rainfall") = true
  /\ mock_in_range (Ok 143.7%float)
  /\ exists r,
       fill_rainfall (Ok 143.7%float) hot_reading =
         Ok (<["rainfall" := PyFloat r]> hot_reading, "estimated (fallback)")
       /\ (0 <=? r)%float = true /\ (r <=? 500)%float = true
       /\ check_realistic_ranges float_of_digits sample_repr
            (<["rainfall" := PyFloat r]> hot_reading) =
          check_realistic_ranges float_of_digits sample_repr hot_reading.
Proof.
  split; [ vm_compute; reflexivity | ].
  split; [ by split | ].
  apply (estimate_costs_nothing float_of_digits sample_repr);
    [ vm_compute; reflexivity | by split ].
Defined.

Lemma estimate_resent_as_sensor_witness :
  is_none (reading !! "rainfall") = true
  /\ get_default_rainfall (Raise ValueError) = Ok 120%float
  /\ recommend_crop float_of_digits sample_repr insertion_argsort
       (Some sample_model) (Some sample_scaler) (Ok 143.7%float)
       (Some (<["rainfall" := PyFloat 120]> reading))
     = as_sensor
         (recommend_crop float_of_digits sample_repr insertion_argsort
            (Some sample_model) (Some sample_scaler) (Raise ValueError)
            (Some reading)).
Proof.
  split; [ vm_compute; reflexivity | ].
  split; [ vm_compute; reflexivity | ].
  apply (estimate_resent_as_sensor float_of_digits sample_repr
           insertion_argsort);
    vm_compute; reflexivity.
Defined.

Lemma profile_reading_unpenalised_witness :
  (exists ranges,
     ("Rice", ranges) ∈ CROP_PROFILES
     /\ within_profile float_of_digits ranges gauged_reading = true)
  /\ moisture_plausible float_of_digits gauged_reading = true
  /\ check_realistic_ranges float_of_digits sample_repr gauged_reading
     = Ok ([], 0%float).
Proof.
  split.
  { eexists. split; [ apply list_elem_of_here | vm_compute; reflexivity ]. }
  split; [ vm_compute; reflexivity | ].
  eapply (profile_reading_unpenalised float_of_digits sample_repr "Rice");
    [ apply list_elem_of_here | vm_compute; reflexivity
    | vm_compute; reflexivity ].
Defined.

Lemma synthetic_data_balanced_witness :
  (forall g loc scale n, length (sample_normal g loc scale n).1 = n)
  /\ exists df g',
       generate_synthetic_data nat sample_uniform sample_normal 0 = Ok (df, g')
       /\ map label df =
            flat_map (fun entry => repeat entry.1 SAMPLES_PER_CROP)
              CROP_PROFILES
       /\ length df = 2640
       /\ (forall crop ranges,
             (crop, ranges) ∈ CROP_PROFILES ->
             length (List.filter (fun r => String.eqb crop (label r)) df)
             = SAMPLES_PER_CROP).
Proof.
  split; [ intros g loc scale n; apply repeat_length | ].
  apply (synthetic_data_balanced nat sample_uniform sample_normal).
  intros g loc scale n. apply repeat_length.
Defined.


(** Noise of the wrong length: the addition raises, and so does the
    script. *)
Example short_noise_run :
  generate_synthetic_data nat sample_uniform
    (fun g _ _ n => (repeat 0%float (n - 1), S g)) 0
  = Raise ValueError.
Proof. vm_compute. reflexivity. Qed.

Lemma validated_request_outcome_witness :
  validate_input float_of_digits sample_repr (Some garbled_reading) = Ok []
  /\ engine_answers insertion_argsort sample_model sample_scaler
  /\ recommend_crop float_of_digits sample_repr insertion_argsort
       (Some sample_model) (Some sample_scaler) (Ok 143.7%float)
       (Some garbled_reading) = ServerError ValueError
  /\ match
       recommend_crop float_of_digits sample_repr insertion_argsort
         (Some sample_model) (Some sample_scaler) (Ok 143.7%float)
         (Some garbled_reading)
     with
     | Success _ _ _ _ =>
         convertible float_of_digits garbled_reading "rainfall" = true
     | ServerError e =>
         exists v, garbled_reading !! "rainfall" = Some v /\ v <> PyNone
                   /\ py_float float_of_digits v = Raise e
     | BadRequest _ | ServiceUnavailable => False
     end.
Proof.
  split; [ vm_compute; reflexivity | ].
  split; [ exact sample_engine_answers | ].
  split; [ vm_compute; reflexivity | ].
  apply (validated_request_outcome float_of_digits sample_repr
           insertion_argsort sample_model sample_scaler (Ok 143.7%float)
           garbled_reading);
    [ vm_compute; reflexivity | exact sample_engine_answers ].
Defined.

Lemma penalty_keeps_ranking_witness :
  build_recommendations insertion_argsort [0.1; 0.6; 0.05; 0.25]%float
    ["Rice"; "Wheat"; "Maize"; "Jute"] 0%float
  = Ok [ {| crop := "Wheat"; confidence := "60%" |};
         {| crop := "Jute"; confidence := "25%" |};
         {| crop := "Rice"; confidence := "10%" |} ]
  /\ exists recs',
       build_recommendations insertion_argsort [0.1; 0.6; 0.05; 0.25]%float
         ["Rice"; "Wheat"; "Maize"; "Jute"] 0.5%float = Ok recs'
       /\ map crop recs' =
            map crop
              [ {| crop := "Wheat"; confidence := "60%" |};
                {| crop := "Jute"; confidence := "25%" |};
                {| crop := "Rice"; confidence := "10%" |} ]
       /\ map crop
            [ {| crop := "Wheat"; confidence := "60%" |};
              {| crop := "Jute"; confidence := "25%" |};
              {| crop := "Rice"; confidence := "10%" |} ]
          = map (fun idx => nth idx ["Rice"; "Wheat"; "Maize"; "Jute"] "")
              (top_indices insertion_argsort [0.1; 0.6; 0.05; 0.25]%float).
Proof.
  split; [ vm_compute; reflexivity | ].
  apply (penalty_keeps_ranking insertion_argsort _ _ 0%float).
  vm_compute. reflexivity.
Defined.
